(** * net-hosts-manager: the Huawei fleet collector, embedded in Rocq

    A shallow embedding of the collector's Python sources
    ([BaseSSH.py], [HuaweiSSH.py], [HuaweiS.py], [HuaweiCE.py],
    [BaseCollector.py], [HuaweiCollector.py]) together with the properties
    of the specification that are settled against it.

    Conventions.
    - Python [str] values are modelled as Rocq strings of 8-bit characters,
      read as the code points 0..255; the regular-expression character
      classes below are Python's classes restricted to that range.
    - Python integers are unbounded and modelled as [Z].
    - A Python exception is an explicit [Raise e] result; a method of a
      session object is a state transformer over the session record. *)

From Stdlib Require Import ZArith Ascii String List Bool Lia.
From stdpp Require Import base option list strings gmap pretty.

Local Open Scope string_scope.
Local Open Scope list_scope.

(** ** Python values and exceptions *)

Inductive value :=
| VNone
| VStr (s : string)
| VInt (z : Z).

Inductive exn :=
| AttributeError
| NameError
| TypeError
| IndexError
| ValueError
| OverflowError
| UnboundLocalError
| AddressValueError
| OtherException.

Inductive result (A : Type) :=
| Ok (a : A)
| Raise (e : exn).
Arguments Ok {A} a.
Arguments Raise {A} e.

#[global] Instance value_eq_dec : EqDecision value.
Proof. solve_decision. Defined.

#[global] Instance exn_eq_dec : EqDecision exn.
Proof. solve_decision. Defined.

(** Python truthiness of the values used by the collector. *)
Definition truthy (v : value) : bool :=
  match v with
  | VNone => false
  | VStr s => negb (String.eqb s "")
  | VInt z => negb (z =? 0)%Z
  end.

(** [x or None] as used by the property getters of [BaseSSH]. *)
Definition or_None (v : value) : value := if truthy v then v else VNone.

(** [str(v)], also what an f-string interpolates. *)
Definition py_str (v : value) : string :=
  match v with
  | VNone => "None"
  | VStr s => s
  | VInt z => pretty z
  end.

(** ** Regular expressions: the fragment of Python's [re] used by the code *)

Module Regex.

(** [\d], [\s], [\S], [\w] and [.] *)
Inductive cls := Digit | Space | NotSpace | Word | AnyChar.

Inductive regex :=
| Eps
| Lit (c : ascii)
| Cls (k : cls)
| Cat (r1 r2 : regex)
| Star (greedy : bool) (r : regex)
| Group (name : option string) (r : regex).

Definition code (c : ascii) : nat := nat_of_ascii c.

Definition between (lo hi : nat) (c : ascii) : bool :=
  (lo <=? code c)%nat && (code c <=? hi)%nat.

Definition is_digit (c : ascii) : bool := between 48 57 c.

Definition is_space (c : ascii) : bool :=
  between 9 13 c || between 28 32 c || (code c =? 133)%nat || (code c =? 160)%nat.

Definition is_word (c : ascii) : bool :=
  between 48 57 c || between 65 90 c || (code c =? 95)%nat || between 97 122 c
  || (code c =? 170)%nat || between 178 179 c || (code c =? 181)%nat
  || between 185 186 c || between 188 190 c || between 192 214 c
  || between 216 246 c || between 248 255 c.

Definition in_cls (k : cls) (c : ascii) : bool :=
  match k with
  | Digit => is_digit c
  | Space => is_space c
  | NotSpace => negb (is_space c)
  | Word => is_word c
  | AnyChar => negb (code c =? 10)%nat
  end.

(** Lower-casing of the ASCII letters, for [re.IGNORECASE]; the literals
    of the patterns below are all ASCII. *)
Definition lower (c : ascii) : ascii :=
  if between 65 90 c then ascii_of_nat (code c + 32) else c.

Definition lit_eq (ic : bool) (c x : ascii) : bool :=
  if ic then Ascii.eqb (lower c) (lower x) else Ascii.eqb c x.

(** Captured groups, most recent binding first. *)
Definition caps := list (string * list ascii).

Definition bind_group (n : option string) (txt : list ascii) (cs : caps) : caps :=
  match n with
  | Some name => (name, txt) :: cs
  | None => cs
  end.

(** The backtracking matcher, in continuation-passing style: [k] receives
    the unread input and the groups captured so far, and answers [None] to
    ask for the next alternative. Alternatives are tried in the order of
    Python's engine: a greedy star tries one more iteration first, a lazy
    star tries to leave first. An iteration of a star has to consume
    input, so the iteration count is bounded by the length of the input. *)
Fixpoint mt {A : Type} (ic : bool) (r : regex) (s : list ascii) (cs : caps)
    (k : list ascii -> caps -> option A) {struct r} : option A :=
  match r with
  | Eps => k s cs
  | Lit c =>
      match s with
      | x :: s' => if lit_eq ic c x then k s' cs else None
      | [] => None
      end
  | Cls c =>
      match s with
      | x :: s' => if in_cls c x then k s' cs else None
      | [] => None
      end
  | Cat r1 r2 => mt ic r1 s cs (fun s' cs' => mt ic r2 s' cs' k)
  | Star g r1 =>
      (fix loop (fuel : nat) (s : list ascii) (cs : caps) {struct fuel} : option A :=
         match fuel with
         | O => k s cs
         | S f =>
             if g then
               match mt ic r1 s cs
                       (fun s' cs' =>
                          if (length s' <? length s)%nat then loop f s' cs' else None) with
               | Some x => Some x
               | None => k s cs
               end
             else
               match k s cs with
               | Some x => Some x
               | None =>
                   mt ic r1 s cs
                      (fun s' cs' =>
                         if (length s' <? length s)%nat then loop f s' cs' else None)
               end
         end) (length s) s cs
  | Group n r1 =>
      mt ic r1 s cs
         (fun s' cs' => k s' (bind_group n (take (length s - length s') s) cs'))
  end.

(** A match object: its span in the searched text, the matched text and
    the captured groups. *)
Record rmatch := {
  m_start : nat;
  m_end : nat;
  m_text : list ascii;
  m_caps : caps
}.

(** One attempt at the current position; [must_advance] refuses the empty
    match there (used by [finditer] after an empty match). *)
Definition match_here (ic : bool) (r : regex) (must_advance : bool)
    (pos : nat) (s : list ascii) : option rmatch :=
  mt ic r s []
     (fun s' cs =>
        if must_advance && (length s' =? length s)%nat then None
        else Some {| m_start := pos;
                     m_end := pos + (length s - length s');
                     m_text := take (length s - length s') s;
                     m_caps := cs |}).

(** [re.search]: the leftmost position at which the pattern matches. *)
Fixpoint search_from (ic : bool) (r : regex) (pos : nat) (s : list ascii)
    : option rmatch :=
  match match_here ic r false pos s with
  | Some m => Some m
  | None =>
      match s with
      | [] => None
      | _ :: t => search_from ic r (S pos) t
      end
  end.

Definition search (ic : bool) (r : regex) (text : string) : option rmatch :=
  search_from ic r 0 (list_ascii_of_string text).

(** [re.finditer]: the successive non-overlapping matches, left to right.
    [skip] counts the characters still covered by the previous match. After
    an empty match the same position is tried once more for a non-empty
    match. *)
Fixpoint scan (ic : bool) (r : regex) (pos skip : nat) (s : list ascii)
    : list rmatch :=
  let next k :=
    match s with
    | [] => []
    | _ :: t => scan ic r (S pos) k t
    end in
  match skip with
  | S k => next k
  | O =>
      match match_here ic r false pos s with
      | None => next 0%nat
      | Some m =>
          if (m_end m =? pos)%nat then
            m :: match match_here ic r true pos s with
                 | Some m' => m' :: next (m_end m' - pos - 1)%nat
                 | None => next 0%nat
                 end
          else m :: next (m_end m - pos - 1)%nat
      end
  end.

Definition finditer (ic : bool) (r : regex) (text : string) : list rmatch :=
  scan ic r 0 0 (list_ascii_of_string text).

(** Names of the groups a pattern defines. *)
Fixpoint group_names (r : regex) : list string :=
  match r with
  | Eps | Lit _ | Cls _ => []
  | Cat r1 r2 => group_names r1 ++ group_names r2
  | Star _ r1 => group_names r1
  | Group (Some n) r1 => n :: group_names r1
  | Group None r1 => group_names r1
  end.

Fixpoint assoc (name : string) (cs : caps) : option (list ascii) :=
  match cs with
  | [] => None
  | (n, txt) :: cs' => if String.eqb n name then Some txt else assoc name cs'
  end.

(** [m.group(name)]: [IndexError] for a name the pattern does not define,
    [None] for a group that took no part in the match. *)
Definition group (r : regex) (m : rmatch) (name : string) : result value :=
  if existsb (String.eqb name) (group_names r) then
    match assoc name (m_caps m) with
    | Some txt => Ok (VStr (string_of_list_ascii txt))
    | None => Ok VNone
    end
  else Raise IndexError.

(** [m.group(0)] *)
Definition group0 (m : rmatch) : string := string_of_list_ascii (m_text m).

(** Pattern-building helpers. *)
Definition lits (s : string) : regex :=
  foldr (fun c r => Cat (Lit c) r) Eps (list_ascii_of_string s).
Definition seq (rs : list regex) : regex := foldr Cat Eps rs.
Definition star (r : regex) : regex := Star true r.
Definition lazy_star (r : regex) : regex := Star false r.
Definition plus (r : regex) : regex := Cat r (Star true r).
Definition named (n : string) (r : regex) : regex := Group (Some n) r.
Definition nl : regex := Lit "010"%char.

End Regex.
Import Regex.

(** ** Small pieces of the Python runtime *)

Definition startswith (prefix s : string) : bool := String.prefix prefix s.

(** [needle in s] *)
Fixpoint contains (needle s : string) : bool :=
  String.prefix needle s ||
  match s with
  | EmptyString => false
  | String _ t => contains needle t
  end.

(** [sep.join(l)] *)
Fixpoint join (sep : string) (l : list string) : string :=
  match l with
  | [] => ""
  | [x] => x
  | x :: t => x +:+ sep +:+ join sep t
  end.

(** [int(s)] on a string of ASCII digits, as captured by [\d+]. *)
Definition int_of_digits (s : string) : Z :=
  fold_left (fun acc c => (10 * acc + (Z.of_nat (nat_of_ascii c) - 48))%Z)
            (list_ascii_of_string s) 0%Z.

(** [int(v)]: defined on integers and digit strings, [ValueError] on other
    strings, [TypeError] on [None]. *)
Definition py_int (v : value) : result Z :=
  match v with
  | VInt z => Ok z
  | VStr s =>
      if negb (String.eqb s "") && forallb is_digit (list_ascii_of_string s)
      then Ok (int_of_digits s) else Raise ValueError
  | VNone => Raise TypeError
  end.

(** *** Naive local date-times

    A [datetime] is modelled by the number of seconds elapsed since
    0001-01-01 00:00:00 (Python's day ordinal 1); microseconds never reach
    the formatted output. *)

Module Datetime.
Local Open Scope Z_scope.

Definition days_of (t : Z) : Z := t / 86400.

(** Year, month and day of the day number [d] (0 is 0001-01-01) in the
    proleptic Gregorian calendar. *)
Definition civil (d : Z) : Z * Z * Z :=
  let z := d + 306 in
  let era := z / 146097 in
  let doe := z mod 146097 in
  let yoe := (doe - doe / 1460 + doe / 36524 - doe / 146096) / 365 in
  let doy := doe - (365 * yoe + yoe / 4 - yoe / 100) in
  let mp := (5 * doy + 2) / 153 in
  let day := doy - (153 * mp + 2) / 5 + 1 in
  let month := if mp <? 10 then mp + 3 else mp - 9 in
  let year := yoe + era * 400 + (if month <=? 2 then 1 else 0) in
  (year, month, day).

(** [%a] in the C locale; day 0 is a Monday. *)
Definition weekday_abbr (d : Z) : string :=
  match d mod 7 with
  | 0 => "Mon" | 1 => "Tue" | 2 => "Wed" | 3 => "Thu"
  | 4 => "Fri" | 5 => "Sat" | _ => "Sun"
  end.

(** Two-digit field, zero padded. *)
Definition two (n : Z) : string :=
  if n <? 10 then "0" +:+ pretty n else pretty n.

(** [strftime("%Y-%m-%d (%a) %H:%M")]; [%Y] is printed as glibc does,
    without padding. *)
Definition format_minutes (t : Z) : string :=
  let d := days_of t in
  let '(y, m, dd) := civil d in
  pretty y +:+ "-" +:+ two m +:+ "-" +:+ two dd +:+ " (" +:+ weekday_abbr d +:+ ") "
    +:+ two ((t / 3600) mod 24) +:+ ":" +:+ two ((t / 60) mod 60).

(** [strftime("%Y-%m-%d (%a) %H:%M:%S")] *)
Definition format_seconds (t : Z) : string :=
  format_minutes t +:+ ":" +:+ two (t mod 60).

(** [now - timedelta(days=days, minutes=minutes)] for non-negative
    arguments: [timedelta] refuses more than 999999999 days, and the
    subtraction refuses a date before year 1. *)
Definition minus_timedelta (now days minutes : Z) : result Z :=
  if 999999999 <? days + (minutes * 60) / 86400 then Raise OverflowError
  else
    let t := now - (days * 86400 + minutes * 60) in
    if t <? 0 then Raise OverflowError else Ok t.

End Datetime.

(** ** The patterns of the sources *)

Definition d_plus : regex := plus (Cls Digit).
Definition S_plus : regex := plus (Cls NotSpace).
Definition s_star : regex := star (Cls Space).
Definition s_plus : regex := plus (Cls Space).
Definition any_star : regex := star (Cls AnyChar).
(** [(.*\n)*?] *)
Definition lines_lazy : regex := lazy_star (Group None (Cat any_star nl)).
(** [\s*:\s*] *)
Definition colon : regex := seq [s_star; lits ":"; s_star].

(** [BaseCollector.DEVICES_LST_LINE_REGEX]:
    [(?P<hostname>\S+)\s*,\s*(?P<ipv4_address>\d+\.\d+\.\d+\.\d+).*] *)
Definition DEVICES_LST_LINE_REGEX : regex :=
  seq [named "hostname" S_plus; s_star; lits ","; s_star;
       named "ipv4_address"
         (seq [d_plus; lits "."; d_plus; lits "."; d_plus; lits "."; d_plus]);
       any_star].

(** [HuaweiSSH.HARDWARE_PLATFORMS], in the insertion order of the dict:
    ['CE': CE], ['S': S\d+], ['USG': USG]. *)
Definition HARDWARE_PLATFORMS : list (string * regex) :=
  [("CE", lits "CE"); ("S", seq [lits "S"; d_plus]); ("USG", lits "USG")].

(** [HuaweiSSH.REGEX_ROUTES_SUMMARY] *)
Definition routes_line (label : regex) : regex :=
  seq [nl; label; s_plus; named "routes_number" d_plus].

Definition REGEX_ROUTES_SUMMARY : list (string * regex) :=
  [("total", routes_line (lits "Total"));
   ("direct", routes_line (lits "DIRECT"));
   ("static", routes_line (lits "STATIC"));
   ("ospf", routes_line (lits "OSPF"));
   ("isis", routes_line (seq [lits "IS"; lazy_star (Cls AnyChar); lits "IS"]));
   ("bgp", routes_line (lits "BGP"))].

Definition DISPLAY_VERSION := "display version".
Definition DISPLAY_PATCH := "display patch".
Definition DISPLAY_SYSNAME := "display current-configuration | include sysname".
Definition DISPLAY_STACK := "display stack".
Definition DISPLAY_CHASSIS_ESN := "display esn".
Definition DISPLAY_DEVICE := "display device manufacture-info".
Definition DISPLAY_MAC_SUMMARY := "display mac-address summary".
Definition DISPLAY_ROUTES_SUMMARY := "display ip routing-table all-vpn-instance statistics".
Definition DISPLAY_IP_VRF := "display ip vpn-instance".

(** [VRP.*software.*(?P<version>V\d+R\d+\S+)\)], searched with IGNORECASE *)
Definition regex_version : regex :=
  seq [lits "VRP"; any_star; lits "software"; any_star;
       named "version" (seq [lits "V"; d_plus; lits "R"; d_plus; S_plus]);
       lits ")"].

(** [Copyright .*\nHUAWEI (?P<hardware>\S+).* uptime] and
    [Copyright .*\n(?P<hardware>\S+).* uptime] *)
Definition regexes_hardware : list regex :=
  [seq [lits "Copyright "; any_star; nl; lits "HUAWEI "; named "hardware" S_plus;
        any_star; lits " uptime"];
   seq [lits "Copyright "; any_star; nl; named "hardware" S_plus;
        any_star; lits " uptime"]].

(** [uptime is\s+] followed by the group [uptime], which captures [.*] *)
Definition regex_uptime : regex :=
  seq [lits "uptime is"; s_plus; named "uptime" any_star].

(** [(?P<number>\d+)\s+(?P<period_name>\w+)] *)
Definition regex_uptime_period : regex :=
  seq [named "number" d_plus; s_plus; named "period_name" (plus (Cls Word))].

(** [Patch Package Version\s*:\s*(?P<patch_version>\S+)] *)
Definition regex_patch : regex :=
  seq [lits "Patch Package Version"; colon; named "patch_version" S_plus].

(** [No patch exists] *)
Definition regex_no_patch : regex := lits "No patch exists".

(** [sysname (?P<sysname>\S+)] *)
Definition regex_sysname : regex := seq [lits "sysname "; named "sysname" S_plus].

(** [\S+-\S+-\S+] *)
Definition mac_address : regex := seq [S_plus; lits "-"; S_plus; lits "-"; S_plus].

(** [(?P<index>\d+)\s+(?P<role>\S+)\s+(?P<mac>\S+-\S+-\S+)\s+(?P<priority>\d+)\s+(?P<device_type>\S+)] *)
Definition regex_stack_member : regex :=
  seq [named "index" d_plus; s_plus; named "role" S_plus; s_plus;
       named "mac" mac_address; s_plus; named "priority" d_plus; s_plus;
       named "device_type" S_plus].

(** [Stack mode\s*:\s*(?P<mode>\S+)(.*\n)*?Stack topology type\s*:\s*(?P<type>\S+)(.*\n)*?Stack system MAC\s*:\s*(?P<MAC>\S+-\S+-\S+)(.*\n)*?] *)
Definition regex_stack : regex :=
  seq [lits "Stack mode"; colon; named "mode" S_plus; lines_lazy;
       lits "Stack topology type"; colon; named "type" S_plus; lines_lazy;
       lits "Stack system MAC"; colon; named "MAC" mac_address; lines_lazy].

(** [(?P<index>\S+)\s*:\s*(?P<esn>\S+)] *)
Definition regex_esn : regex :=
  seq [named "index" S_plus; colon; named "esn" S_plus].

(** ['Total VPN-Instances configured\s+:\s*(?P<number>\d+)'] *)
Definition regex_vrf_total : regex :=
  seq [lits "Total VPN-Instances configured"; s_plus; lits ":"; s_star;
       named "number" d_plus].

(** [\n\s*(?P<vrf_name>\S+)\s+.*?\s+IPv] *)
Definition regex_vrf_name : regex :=
  seq [nl; s_star; named "vrf_name" S_plus; s_plus; lazy_star (Cls AnyChar);
       s_plus; lits "IPv"].

(** *** The per-platform helpers [HuaweiCE] and [HuaweiS] *)

(** The seven columns after the slot index of a [display device] row. *)
Definition board_columns : regex :=
  seq [s_plus; named "sub" S_plus; s_plus; named "type" S_plus; s_plus;
       named "online" S_plus; s_plus; named "power" S_plus; s_plus;
       named "register" S_plus; s_plus; named "status" S_plus; s_plus;
       named "role" S_plus].

Module HuaweiCE.
Definition get_request_esn_full_command : string * string * string :=
  ("display device elabel", "", "").

(** [\s+(?P<index>\S*\d+)\s+...] for all boards, [\s+(?P<index>\d+)\s+...]
    for the main boards *)
Definition get_regex_request_boards_list (flag_all_boards : bool) : regex :=
  if flag_all_boards
  then seq [s_plus; named "index" (seq [star (Cls NotSpace); d_plus]); board_columns]
  else seq [s_plus; named "index" d_plus; board_columns].

(** [Capacity of this slot\s*:\s*(?P<capacity>\d+)(.*\n)*?In-used\s*:\s*(?P<in_used>\d+)] *)
Definition get_regex_request_mac_summary : regex :=
  seq [lits "Capacity of this slot"; colon; named "capacity" d_plus; lines_lazy;
       lits "In-used"; colon; named "in_used" d_plus].
End HuaweiCE.

Module HuaweiS.
Definition get_request_esn_full_command : string * string * string :=
  ("display elabel", "[Y/N]", "y").

(** [\n(?P<index>\S*\d+)\s+...], the same pattern for both flags *)
Definition get_regex_request_boards_list (flag_all_boards : bool) : regex :=
  if flag_all_boards
  then seq [nl; named "index" (seq [star (Cls NotSpace); d_plus]); board_columns]
  else seq [nl; named "index" (seq [star (Cls NotSpace); d_plus]); board_columns].

(** [In-used\s+:\s+(?P<in_used>\d+)\nCapacity\s+:\s+(?P<capacity>\d+)] *)
Definition get_regex_request_mac_summary : regex :=
  seq [lits "In-used"; s_plus; lits ":"; s_plus; named "in_used" d_plus; nl;
       lits "Capacity"; s_plus; lits ":"; s_plus; named "capacity" d_plus].

(** [\n\s*Total\s*:\s*(?P<total>\d+)] *)
Definition regex_total_users : regex :=
  seq [nl; s_star; lits "Total"; colon; named "total" d_plus].

Definition get_command_and_regex_dot1x_users : string * regex :=
  ("display access-user access-type dot1x", regex_total_users).

Definition get_command_and_regex_mac_users : string * regex :=
  ("display access-user access-type mac-authen", regex_total_users).
End HuaweiS.

(** ** [ipaddress.IPv4Address] *)

Fixpoint split_on (sep : ascii) (s : string) : list string :=
  match s with
  | EmptyString => [""]
  | String c t =>
      if Ascii.eqb c sep then "" :: split_on sep t
      else match split_on sep t with
           | [] => [String c ""]
           | x :: xs => String c x :: xs
           end
  end.

Definition octet_ok (o : string) : bool :=
  negb (String.eqb o "")
  && forallb is_digit (list_ascii_of_string o)
  && (String.length o <=? 3)%nat
  && (String.eqb o "0" || negb (String.prefix "0" o))
  && (int_of_digits o <=? 255)%Z.

(** [str(ipaddress.IPv4Address(v))], or [AddressValueError]. *)
Definition IPv4Address (v : value) : result string :=
  match v with
  | VStr s =>
      let octets := split_on "."%char s in
      if (length octets =? 4)%nat && forallb octet_ok octets then Ok s
      else Raise AddressValueError
  | VInt z =>
      if (0 <=? z)%Z && (z <? 2 ^ 32)%Z then
        Ok (join "." (map (fun k => pretty ((z / 256 ^ k) mod 256)%Z) [3; 2; 1; 0]%Z))
      else Raise AddressValueError
  | VNone => Raise AddressValueError
  end.

(** ** The session object: [BaseSSH] *)

Inductive ssh_lib := SSH_LIB_PARAMIKO | SSH_LIB_NETMIKO.

Inductive level := DEBUG | INFO | WARNING | ERROR | CRITICAL.

(** What a host task does to the outside world, in order. *)
Inductive event :=
| EvConnect (lib : ssh_lib)
| EvSend (command : string)
| EvSleep
| EvDisconnect
| EvLog (lvl : level) (msg : string).

#[global] Instance ssh_lib_eq_dec : EqDecision ssh_lib.
Proof. solve_decision. Defined.

#[global] Instance level_eq_dec : EqDecision level.
Proof. solve_decision. Defined.

#[global] Instance event_eq_dec : EqDecision event.
Proof. solve_decision. Defined.

(** The transport collaborator and the clock, as one host task sees them. *)
Inductive connect_error := ValueErr | AuthenticationErr | TimeoutErr | OtherErr.

Inductive connect_outcome :=
| Connected
| ConnectRaises (e : connect_error).

Record Env := {
  (** the outcome of opening the connection with the given library *)
  transport_connect : ssh_lib -> connect_outcome;
  (** Paramiko only: [invoke_shell] and the first [recv] succeed *)
  transport_shell : bool;
  (** the reply to the n-th text written to the session *)
  transport_respond : nat -> string -> result string;
  (** Netmiko only: [disconnect] succeeds *)
  transport_disconnect : bool;
  (** the n-th reading of [datetime.now()] *)
  clock : nat -> Z
}.

(** One [BaseSSH] (or [HuaweiSSH]) instance. [_os_version] is [None] until
    the setter creates the attribute; the other attributes have class-level
    defaults. *)
Record session := {
  ip_address : string;
  _hostname : value;
  _logger : bool;
  _ssh_lib_type : option ssh_lib;
  ssh_channell : bool;
  _os_version : option value;
  _hardware : value;
  _uptime : value;
  _patch_version : value;
  sent : nat;
  ticks : nat;
  trace : list event
}.

Definition M (A : Type) : Type := session -> result A * session.

Definition ret {A} (a : A) : M A := fun s => (Ok a, s).
Definition raise {A} (e : exn) : M A := fun s => (Raise e, s).
Definition lift {A} (r : result A) : M A := fun s => (r, s).
Definition bind {A B} (m : M A) (f : A -> M B) : M B :=
  fun s =>
    match m s with
    | (Ok a, s') => f a s'
    | (Raise e, s') => (Raise e, s')
    end.
(** [try: m except: h] *)
Definition try_except {A} (m : M A) (h : exn -> M A) : M A :=
  fun s =>
    match m s with
    | (Ok a, s') => (Ok a, s')
    | (Raise e, s') => h e s'
    end.
Definition get : M session := fun s => (Ok s, s).
Definition modify (f : session -> session) : M unit := fun s => (Ok tt, f s).

Declare Scope monad_scope.
Delimit Scope monad_scope with monad.
Notation "x <- m ;; k" := (bind m (fun x => k))
  (at level 100, m at next level, right associativity) : monad_scope.
Notation "m ;; k" := (bind m (fun _ => k))
  (at level 100, right associativity) : monad_scope.
Local Open Scope monad_scope.

Definition with_trace (t : list event) (s : session) : session :=
  {| ip_address := ip_address s; _hostname := _hostname s; _logger := _logger s;
     _ssh_lib_type := _ssh_lib_type s; ssh_channell := ssh_channell s;
     _os_version := _os_version s; _hardware := _hardware s; _uptime := _uptime s;
     _patch_version := _patch_version s; sent := sent s; ticks := ticks s;
     trace := t |}.

Definition with_ssh_lib_type (l : option ssh_lib) (s : session) : session :=
  {| ip_address := ip_address s; _hostname := _hostname s; _logger := _logger s;
     _ssh_lib_type := l; ssh_channell := ssh_channell s;
     _os_version := _os_version s; _hardware := _hardware s; _uptime := _uptime s;
     _patch_version := _patch_version s; sent := sent s; ticks := ticks s;
     trace := trace s |}.

Definition with_channel (s : session) : session :=
  {| ip_address := ip_address s; _hostname := _hostname s; _logger := _logger s;
     _ssh_lib_type := _ssh_lib_type s; ssh_channell := true;
     _os_version := _os_version s; _hardware := _hardware s; _uptime := _uptime s;
     _patch_version := _patch_version s; sent := sent s; ticks := ticks s;
     trace := trace s |}.

Definition with_counters (n t : nat) (s : session) : session :=
  {| ip_address := ip_address s; _hostname := _hostname s; _logger := _logger s;
     _ssh_lib_type := _ssh_lib_type s; ssh_channell := ssh_channell s;
     _os_version := _os_version s; _hardware := _hardware s; _uptime := _uptime s;
     _patch_version := _patch_version s; sent := n; ticks := t;
     trace := trace s |}.

(** The setters of the properties [hostname], [os_version], [hardware],
    [uptime] and [patch_version]. *)
Definition with_info (hn : value) (osv : option value) (hw up pv : value)
    (s : session) : session :=
  {| ip_address := ip_address s; _hostname := hn; _logger := _logger s;
     _ssh_lib_type := _ssh_lib_type s; ssh_channell := ssh_channell s;
     _os_version := osv; _hardware := hw; _uptime := up;
     _patch_version := pv; sent := sent s; ticks := ticks s;
     trace := trace s |}.

Definition set_hostname (v : value) : M unit :=
  modify (fun s => with_info v (_os_version s) (_hardware s) (_uptime s) (_patch_version s) s).
Definition set_os_version (v : value) : M unit :=
  modify (fun s => with_info (_hostname s) (Some v) (_hardware s) (_uptime s) (_patch_version s) s).
Definition set_hardware (v : value) : M unit :=
  modify (fun s => with_info (_hostname s) (_os_version s) v (_uptime s) (_patch_version s) s).
Definition set_uptime (v : value) : M unit :=
  modify (fun s => with_info (_hostname s) (_os_version s) (_hardware s) v (_patch_version s) s).
Definition set_patch_version (v : value) : M unit :=
  modify (fun s => with_info (_hostname s) (_os_version s) (_hardware s) (_uptime s) v s).

Definition emit (e : event) : M unit :=
  modify (fun s => with_trace (trace s ++ [e]) s).

(** A call on [self._logger]: the logger is [None] when the constructor
    failed, and then the call raises [AttributeError]. *)
Definition log (l : level) (msg : string) : M unit :=
  s <- get ;;
  if _logger s then emit (EvLog l msg) else raise AttributeError.

(** A call on the collector's logger ([parent_logger]). *)
Definition parent_log (l : level) (msg : string) : M unit := emit (EvLog l msg).

Module BaseSSH.

(** The property getters: [self._x or None]; reading [os_version] before
    its setter ran raises [AttributeError]. *)
Definition hostname : M value := s <- get ;; ret (or_None (_hostname s)).
Definition hardware : M value := s <- get ;; ret (or_None (_hardware s)).
Definition uptime : M value := s <- get ;; ret (or_None (_uptime s)).
Definition patch_version : M value := s <- get ;; ret (or_None (_patch_version s)).
Definition os_version : M value :=
  s <- get ;;
  match _os_version s with
  | Some v => ret (or_None v)
  | None => raise AttributeError
  end.
Definition ssh_lib_type : M (option ssh_lib) := s <- get ;; ret (_ssh_lib_type s).

(** [BaseSSH.__init__(ipv4, hostname, logger_settings)]. With a malformed
    address the handler of [AddressValueError] stores the text as host
    name, reports on the collector's logger and leaves [_logger] unset.
    [LoggingSettings.get_logger] is taken to succeed. *)
Definition init (ipv4 hostname : value) : session :=
  match IPv4Address ipv4 with
  | Ok ip =>
      {| ip_address := ip; _hostname := hostname; _logger := true;
         _ssh_lib_type := None; ssh_channell := false; _os_version := None;
         _hardware := VStr ""; _uptime := VStr ""; _patch_version := VStr "";
         sent := 0; ticks := 0;
         trace := [EvLog DEBUG "Object BaseSSH has been created"] |}
  | Raise _ =>
      {| ip_address := ""; _hostname := ipv4; _logger := false;
         _ssh_lib_type := None; ssh_channell := false; _os_version := None;
         _hardware := VStr ""; _uptime := VStr ""; _patch_version := VStr "";
         sent := 0; ticks := 0;
         trace := [EvLog ERROR "wrong IP address"] |}
  end.

Definition log_connection_status_change (change : string) : M unit :=
  log WARNING change.

(** [log_command]: it first touches [self._logger.propagate]. *)
Definition log_command (command output : string) : M unit :=
  s <- get ;;
  if _logger s then
    parent_log INFO "Executing command" ;;
    log WARNING "Executing command"
  else raise AttributeError.

(** Writing one text to the remote shell, and reading the reply to it. *)
Definition write (text : string) : M nat :=
  s <- get ;;
  emit (EvSend text) ;;
  modify (with_counters (S (sent s)) (ticks s)) ;;
  ret (sent s).

Definition read (env : Env) (n : nat) (text : string) : M string :=
  lift (transport_respond env n text).

Definition transmit (env : Env) (text : string) : M string :=
  n <- write text ;;
  read env n text.

Definition connect_ssh_nmiko (env : Env) : M unit :=
  log DEBUG "Trying to connect using Netmiko" ;;
  emit (EvConnect SSH_LIB_NETMIKO) ;;
  match transport_connect env SSH_LIB_NETMIKO with
  | Connected =>
      modify (with_ssh_lib_type (Some SSH_LIB_NETMIKO)) ;;
      try_except (log_connection_status_change "Connected")
        (fun _ =>
           log INFO "Error during connecting to host" ;;
           (* self._logger.error() without a message *)
           raise TypeError)
  | ConnectRaises ValueErr => log WARNING "wrong IP"
  | ConnectRaises AuthenticationErr => log WARNING "Authentication failed"
  | ConnectRaises TimeoutErr => log WARNING "Timeout of connection"
  | ConnectRaises OtherErr =>
      log INFO "Error during connecting to host" ;;
      (* self._logger.error() without a message *)
      raise TypeError
  end.

Definition _adjust_pmiko_ssh_screen_lenght : M unit := ret tt.

Definition connect_ssh_pmiko (env : Env) : M unit :=
  emit (EvConnect SSH_LIB_PARAMIKO) ;;
  match transport_connect env SSH_LIB_PARAMIKO with
  | ConnectRaises TimeoutErr => log ERROR "No access to host - Timeout connection"
  | ConnectRaises AuthenticationErr => log ERROR "No access to host - Autentication failed"
  | ConnectRaises ValueErr => raise ValueError
  | ConnectRaises OtherErr => raise OtherException
  | Connected =>
      modify (with_ssh_lib_type (Some SSH_LIB_PARAMIKO)) ;;
      log_connection_status_change "Connected" ;;
      try_except
        (if transport_shell env then
           modify with_channel ;;
           emit EvSleep ;;
           log INFO "Message after successfull logging" ;;
           _adjust_pmiko_ssh_screen_lenght
         else raise OtherException)
        (fun _ => log CRITICAL "Exception while trying to connect via SSH using Paramiko")
  end.

(** [connect_ssh(username, password, port, nmiko_device_type)] *)
Definition connect_ssh (env : Env) (nmiko_device_type : value) : M unit :=
  if truthy nmiko_device_type then connect_ssh_nmiko env
  else connect_ssh_pmiko env.

Definition send_command_nmiko_with_prompt (env : Env)
    (command expect_string prompt : string) : M string :=
  log DEBUG "Command will be executed using Netmiko with prompt" ;;
  output <- transmit env command ;;
  log DEBUG "Output before prompt" ;;
  output2 <- transmit env prompt ;;
  log DEBUG "Output after prompt" ;;
  ret (output +:+ output2).

(** [kwargs] carries [expect_string] and [prompt] when the caller passes
    them. *)
Definition send_command_nmiko (env : Env) (command : string)
    (kwargs : option (string * string)) : M string :=
  try_except
    (output <-
       match kwargs with
       | Some (expect_string, prompt) =>
           if truthy (VStr expect_string) && truthy (VStr prompt) then
             log INFO "send_command_nmiko_with_prompt" ;;
             send_command_nmiko_with_prompt env command expect_string prompt
           else transmit env command
       | None => transmit env command
       end ;;
     log_command command output ;;
     ret output)
    (fun _ =>
       log ERROR "Exception while trying to execute command" ;;
       ret "").

(** [send_command_pmiko(command, timeout=0.5, length=4000)] accepts no
    other keyword. Only [AttributeError] is handled. *)
Definition send_command_pmiko (env : Env) (command : string)
    (kwargs : option (string * string)) : M string :=
  match kwargs with
  | Some _ => raise TypeError
  | None =>
      try_except
        (s <- get ;;
         if ssh_channell s then
           n <- write (" " +:+ command +:+ "
") ;;
           emit EvSleep ;;
           output <- read env n command ;;
           log_command command output ;;
           ret output
         else raise AttributeError)
        (fun e =>
           match e with
           | AttributeError =>
               log ERROR "Exception while trying to execute command" ;;
               ret ""
           | _ => raise e
           end)
  end.

(** [send_command(command, **kwargs)] *)
Definition send_command (env : Env) (command : string)
    (kwargs : option (string * string)) : M string :=
  lib <- ssh_lib_type ;;
  match lib with
  | Some SSH_LIB_PARAMIKO => send_command_pmiko env command kwargs
  | Some SSH_LIB_NETMIKO => send_command_nmiko env command kwargs
  | None =>
      log ERROR "Error during executing command" ;;
      ret ""
  end.

Definition _disconnect_ssh_nmiko (env : Env) : M unit :=
  try_except
    (if transport_disconnect env then
       emit EvDisconnect ;;
       modify (with_ssh_lib_type None) ;;
       log_connection_status_change "Disconnected"
     else raise OtherException)
    (fun _ => log WARNING "Tried to close Netmiko connection, but handled Exception").

(** [self.ssh_connection] is never assigned, so the [close] call raises
    [AttributeError], which the handler logs. *)
Definition _disconnect_ssh_pmiko : M unit :=
  try_except (raise AttributeError)
    (fun _ => log WARNING "Tried to close Paramiko connection, but handled Exception").

Definition disconnect_ssh (env : Env) : M unit :=
  s <- get ;;
  match _ssh_lib_type s with
  | Some SSH_LIB_NETMIKO => _disconnect_ssh_nmiko env
  | Some SSH_LIB_PARAMIKO => _disconnect_ssh_pmiko
  | None => ret tt
  end.

(** The property [change_datetime] *)
Definition change_datetime (env : Env) : M string :=
  s <- get ;;
  modify (with_counters (sent s) (S (ticks s))) ;;
  ret (Datetime.format_seconds (clock env (ticks s))).

Definition log_event_debug (msg : string) : M unit := log DEBUG msg.
Definition log_event_error (msg : string) : M unit := log ERROR msg.

(** [send_commands(commands)]: the outputs, concatenated *)
Fixpoint send_commands_from (env : Env) (commands : list string) (output : string)
    : M string :=
  match commands with
  | [] => ret output
  | command :: rest =>
      o <- send_command env command None ;;
      send_commands_from env rest (output +:+ o)
  end.

Definition send_commands (env : Env) (commands : list string) : M string :=
  log DEBUG "running commands" ;;
  send_commands_from env commands "".

(** [convert_to_seconds(hours, minutes, seconds)], on integers *)
Definition convert_to_seconds (hours minutes seconds : Z) : Z :=
  (hours * 3600 + minutes * 60 + seconds)%Z.

(** [get_time_string(seconds)], on an integer: [//] and [%] round towards
    minus infinity, as [Z.div] and [Z.modulo] do. *)
Definition get_time_string (seconds : Z) : string :=
  let hours := ((seconds / 3600) mod 24)%Z in
  let minutes := ((seconds / 60) mod 60)%Z in
  let seconds := (seconds mod 60)%Z in
  pretty hours +:+ ":" +:+ pretty minutes +:+ ":" +:+ pretty seconds.

End BaseSSH.

(** [try: m except e0: h]; other exceptions pass through. *)
Definition catch {A} (e0 : exn) (m : M A) (h : M A) : M A :=
  try_except m (fun e => if decide (e = e0) then h else raise e).

(** [match.group(name)] on the result of [re.search]: on [None] the
    attribute access raises [AttributeError]. *)
Definition group_of (r : regex) (m : option rmatch) (name : string) : M value :=
  match m with
  | Some m => lift (group r m name)
  | None => raise AttributeError
  end.

(** A Python [dict] with string keys. *)
Abbreviation dict := (gmap string value).

(** ** The Huawei session: [HuaweiSSH] *)

Module HuaweiSSH.
Import BaseSSH.

Definition log_match_found (attribute_name : string) : M unit :=
  log DEBUG ("Got " +:+ attribute_name).
Definition log_match_error (attribute_name : string) : M unit :=
  log ERROR ("Can't get " +:+ attribute_name).
Definition log_info_requesting (attribute_name : string) : M unit :=
  log DEBUG ("Requesting " +:+ attribute_name).
Definition log_info_requested (attribute_name : string) : M unit :=
  log INFO ("Requested " +:+ attribute_name).

(** [_return_version]: the message of the handler interpolates
    [self.get_ip_address()], a method no class defines, so the handler
    itself raises [AttributeError]. *)
Definition _return_version (output_display_version : string) : M value :=
  let m := search true regex_version output_display_version in
  catch AttributeError
    (v <- group_of regex_version m "version" ;;
     ret (VStr (py_str v)))
    (raise AttributeError).

Fixpoint _return_hardware_from (regexes : list regex)
    (output_display_version : string) : M value :=
  match regexes with
  | [] =>
      log_match_error "hardware" ;;
      ret (VStr "N/A")
  | regex :: rest =>
      let m := search false regex output_display_version in
      found <- catch AttributeError
                 (hardware <- group_of regex m "hardware" ;;
                  log_match_found "hardware" ;;
                  ret (Some hardware))
                 (ret None) ;;
      match found with
      | Some hardware => ret hardware
      | None => _return_hardware_from rest output_display_version
      end
  end.

Definition _return_hardware (output_display_version : string) : M value :=
  _return_hardware_from regexes_hardware output_display_version.

Definition request_hardware_info (env : Env) : M value :=
  log_info_requesting "Hardware" ;;
  output <- send_command env DISPLAY_VERSION None ;;
  hw <- _return_hardware output ;;
  set_hardware hw ;;
  _ <- os_version ;;
  log_info_requested "Hardware" ;;
  hardware.

(** The first platform of [platforms] whose pattern is found in the
    hardware text; [None] when the loop ends without a match. *)
Fixpoint platform_of (platforms : list (string * regex)) (hw : string) : value :=
  match platforms with
  | [] => VNone
  | (platform, regex) :: rest =>
      match search false regex hw with
      | Some _ => VStr platform
      | None => platform_of rest hw
      end
  end.

(** The property [hardware_platform] *)
Definition hardware_platform (env : Env) : M value :=
  known <- hardware ;;
  hw <- (if truthy known then ret known else request_hardware_info env) ;;
  match hw with
  | VStr h => ret (platform_of HARDWARE_PLATFORMS h)
  | _ => raise TypeError
  end.

Definition days_multiply (word : string) : Z :=
  if String.eqb word "weeks" || String.eqb word "week" then 7%Z
  else if String.eqb word "day" || String.eqb word "days" then 1%Z
  else 0%Z.

Definition minutes_multiply (word : string) : Z :=
  if String.eqb word "hour" || String.eqb word "hours" then 60%Z
  else if String.eqb word "munites" || String.eqb word "minutes" then 1%Z
  else 0%Z.

(** [re.findall] of the period pattern: the pairs (number, period name). *)
Definition uptime_periods (uptime_period : string) : list (string * string) :=
  map (fun m =>
         (match group regex_uptime_period m "number" with Ok v => py_str v | Raise _ => "" end,
          match group regex_uptime_period m "period_name" with Ok v => py_str v | Raise _ => "" end))
      (finditer false regex_uptime_period uptime_period).

Definition uptime_days (uptime_period : string) : Z :=
  fold_left (fun acc m => (acc + int_of_digits (fst m) * days_multiply (snd m))%Z)
            (uptime_periods uptime_period) 0%Z.

Definition uptime_minutes (uptime_period : string) : Z :=
  fold_left (fun acc m => (acc + int_of_digits (fst m) * minutes_multiply (snd m))%Z)
            (uptime_periods uptime_period) 0%Z.

(** [convert_uptime_to_since_date]: reads [datetime.now()] when a period
    was recognised. *)
Definition convert_uptime_to_since_date (env : Env) (uptime_period : value) : M value :=
  match uptime_period with
  | VStr up =>
      let days := uptime_days up in
      let minutes := uptime_minutes up in
      if negb (days =? 0)%Z || negb (minutes =? 0)%Z then
        s <- get ;;
        modify (with_counters (sent s) (S (ticks s))) ;;
        date_shift <- lift (Datetime.minus_timedelta (clock env (ticks s)) days minutes) ;;
        ret (VStr (Datetime.format_minutes date_shift))
      else ret (VStr ("N/A for '" +:+ up +:+ "'"))
  | _ => raise TypeError
  end.

(** [_return_uptime]: the handler calls [log_match_error] without [self.],
    an unbound name. *)
Definition _return_uptime (output_display_version : string) : M value :=
  let m := search false regex_uptime output_display_version in
  catch AttributeError
    (up <- group_of regex_uptime m "uptime" ;;
     log_match_found "uptime" ;;
     ret up)
    (raise NameError).

Definition _is_no_patch_exists (output_display_patch : string) : bool :=
  match search false regex_no_patch output_display_patch with
  | Some _ => true
  | None => false
  end.

(** [_return_patch]: the [AttributeError] handler returns only when the
    confirmation is found; otherwise the function falls off its end and
    returns [None]. *)
Definition _return_patch (output_display_patch : string) : M value :=
  let m := search false regex_patch output_display_patch in
  try_except
    (v <- group_of regex_patch m "patch_version" ;;
     log_match_found "Patch version" ;;
     ret (VStr (py_str v)))
    (fun e =>
       match e with
       | AttributeError =>
           if _is_no_patch_exists output_display_patch then ret (VStr "No patch")
           else ret VNone
       | _ =>
           log_match_error "Patch Version" ;;
           ret (VStr "N/A")
       end).

Definition _return_sysname (output_display_cur : string) : M value :=
  let m := search false regex_sysname output_display_cur in
  catch AttributeError
    (v <- group_of regex_sysname m "sysname" ;;
     log_match_found "Sysname" ;;
     ret (VStr (py_str v)))
    (log_match_error "Sysname" ;;
     ret (VStr "N/A")).

(** [request_common_info(flag_uptime_since=True)] *)
Definition request_common_info (env : Env) (flag_uptime_since : bool) : M dict :=
  log_info_requesting "Common information" ;;
  output <- send_command env DISPLAY_VERSION None ;;
  v <- _return_version output ;;
  set_os_version v ;;
  hw <- _return_hardware output ;;
  set_hardware hw ;;
  (if flag_uptime_since then
     up <- _return_uptime output ;;
     since <- convert_uptime_to_since_date env up ;;
     set_uptime since
   else
     up <- _return_uptime output ;;
     set_uptime up) ;;
  _ <- os_version ;;
  log_info_requested "Software version" ;;
  log_info_requested "Hardware" ;;
  log_info_requested "Uptime" ;;
  output_patch <- send_command env DISPLAY_PATCH None ;;
  pv <- _return_patch output_patch ;;
  set_patch_version pv ;;
  log_info_requested "Patch version" ;;
  output_cur <- send_command env DISPLAY_SYSNAME None ;;
  hn <- _return_sysname output_cur ;;
  set_hostname hn ;;
  log_info_requested "Sysname" ;;
  r_hostname <- hostname ;;
  r_version <- os_version ;;
  r_patch <- patch_version ;;
  r_hardware <- hardware ;;
  r_uptime <- uptime ;;
  ret (<["hostname" := r_hostname]>
       (<["software_version" := r_version]>
        (<["patch_version" := r_patch]>
         (<["hardware" := r_hardware]>
          (<["uptime" := r_uptime]> (∅ : dict)))))).

Definition _return_stack_member_number (output_display_stack : string) : M Z :=
  let members_number :=
    Z.of_nat (length (finditer false regex_stack_member output_display_stack)) in
  log_match_found "Stack members number" ;;
  ret members_number.

(** [_return_stack_info]. In the [try] block only the first
    [match.group] can raise, so the handler sees the dictionary as it was
    before the block. *)
Definition _return_stack_info (env : Env) (output_display_stack : string)
    (one_key_only more_than_two_member_only : bool) : M dict :=
  log_event_debug "Checking if host is stack" ;;
  let m := search false regex_stack output_display_stack in
  n <- _return_stack_member_number output_display_stack ;;
  let result : dict := {["Stack members number" := VInt n]} in
  if more_than_two_member_only && (1 <? n)%Z then
    catch AttributeError
      (mode <- group_of regex_stack m "mode" ;;
       type <- group_of regex_stack m "type" ;;
       mac <- group_of regex_stack m "MAC" ;;
       let result : dict :=
         <["status" := VInt 1]>
         (<["Stack system MAC" := mac]>
          (<["Stack topology type" := type]>
           (<["Stack mode" := mode]> result))) in
       let result : dict :=
         if one_key_only then
           {["stack_info" :=
               VStr ("topo: " +:+ py_str type +:+ ", members: " +:+ pretty n)]}
         else result in
       log_match_found "Stack information" ;;
       ret result)
      (let result : dict :=
         if one_key_only then {["stack_info" := VStr ("members: " +:+ pretty n)]}
         else result in
       platform <- hardware_platform env ;;
       (if decide (platform = VStr "CE") then ret tt
        else log_match_error "Stack information") ;;
       ret result)
  else if one_key_only then ret {["stack_info" := VStr ""]}
  else ret result.

(** [request_stack_brief_info(one_key_only=False, more_than_two_member_only=True)] *)
Definition request_stack_brief_info (env : Env)
    (one_key_only more_than_two_member_only : bool) : M dict :=
  log_info_requesting "Stack information" ;;
  output <- send_command env DISPLAY_STACK None ;;
  stack_info <- _return_stack_info env output one_key_only more_than_two_member_only ;;
  log_info_requested "Stack information" ;;
  ret stack_info.

Definition group_str (r : regex) (m : rmatch) (name : string) : M string :=
  v <- lift (group r m name) ;;
  ret (py_str v).

Fixpoint mapM {A B} (f : A -> M B) (l : list A) : M (list B) :=
  match l with
  | [] => ret []
  | x :: t =>
      y <- f x ;;
      ys <- mapM f t ;;
      ret (y :: ys)
  end.

Definition _return_chassiss_esn (output_display_esn : string) : M (list string) :=
  let matches := finditer false regex_esn output_display_esn in
  try_except
    (esn_list <- mapM (fun m => group_str regex_esn m "esn") matches ;;
     log_match_found "ESN Chassis" ;;
     ret esn_list)
    (fun _ =>
       log_match_error "ESN Chassis" ;;
       ret []).

Definition get_chassis_esn_command : string := DISPLAY_CHASSIS_ESN.

Definition request_esn_chassis (env : Env) : M (list string) :=
  let command := get_chassis_esn_command in
  log_info_requesting "ESN Chassis" ;;
  output <- send_command env command None ;;
  esn_chassis <- _return_chassiss_esn output ;;
  log_info_requested "ESN Chassis" ;;
  ret esn_chassis.

(** [get_regex_request_boards_list]: [None] for a platform that is
    neither CE nor S. *)
Definition get_regex_request_boards_list (env : Env) (flag_all_boards : bool)
    : M (option regex) :=
  platform <- hardware_platform env ;;
  let regex :=
    if decide (platform = VStr "CE")
    then Some (HuaweiCE.get_regex_request_boards_list flag_all_boards)
    else if decide (platform = VStr "S")
    then Some (HuaweiS.get_regex_request_boards_list flag_all_boards)
    else None in
  log DEBUG "Determined regex for platform" ;;
  ret regex.

Record board := { board_index : string; board_type : string }.

(** The loop of [_return_boards_list] over the matches: the boards
    appended so far, and the exception that interrupted the loop, if any. *)
Fixpoint boards_loop (regex : regex) (matches : list rmatch) (boards : list board)
    : list board * option exn :=
  match matches with
  | [] => (boards, None)
  | m :: rest =>
      match group regex m "index", group regex m "type" with
      | Ok i, Ok t =>
          boards_loop regex rest
            (boards ++ [{| board_index := py_str i; board_type := py_str t |}])
      | Raise e, _ => (boards, Some e)
      | _, Raise e => (boards, Some e)
      end
  end.

(** [_return_boards_list]: [re.finditer] is called before the [try], and
    with [None] for a pattern it raises [TypeError]. *)
Definition _return_boards_list (regex : option regex)
    (output_display_device : string) : M (list board) :=
  match regex with
  | None => raise TypeError
  | Some regex =>
      let matches := finditer false regex output_display_device in
      let '(boards, interrupted) := boards_loop regex matches [] in
      try_except
        (match interrupted with
         | Some e => raise e
         | None =>
             log_match_found "Boards List" ;;
             ret boards
         end)
        (fun _ =>
           log_match_error "Boards List" ;;
           ret boards)
  end.

(** An element of the list [request_boards_list] returns: a board, or
    with [printable=True] its line of text. *)
Inductive board_item :=
| BoardDict (b : board)
| BoardLine (s : string).

(** [request_boards_list(printable=False, flag_all_boards=False)] *)
Definition request_boards_list (env : Env) (printable flag_all_boards : bool)
    : M (list board_item) :=
  regex <- get_regex_request_boards_list env flag_all_boards ;;
  log_info_requesting "Boards list" ;;
  output <- send_command env DISPLAY_DEVICE None ;;
  boards_list <- _return_boards_list regex output ;;
  log_info_requested "Boards list" ;;
  if (length boards_list <? 2)%nat then ret []
  else if printable then
    ret (map (fun b => BoardLine (board_index b +:+ " - " +:+ board_type b)) boards_list)
  else ret (map BoardDict boards_list).

(** [get_regex_request_mac_summary]: the empty pattern for a platform that
    is neither CE nor S. *)
Definition get_regex_request_mac_summary (env : Env) : M regex :=
  platform <- hardware_platform env ;;
  if decide (platform = VStr "CE") then ret HuaweiCE.get_regex_request_mac_summary
  else if decide (platform = VStr "S") then ret HuaweiS.get_regex_request_mac_summary
  else
    log ERROR "Can't determine regex for requesting MAC Summary" ;;
    ret Eps.

Definition _return_mac_summary (env : Env) (output_display_mac_sumamry : string)
    : M dict :=
  regex <- get_regex_request_mac_summary env ;;
  let m := search false regex output_display_mac_sumamry in
  try_except
    (capacity <- group_of regex m "capacity" ;;
     in_used <- group_of regex m "in_used" ;;
     log_match_found "MAC Summary" ;;
     ret (<["capacity" := capacity]> (<["in_used" := in_used]> (∅ : dict))))
    (fun _ =>
       log_match_error "MAC Summary" ;;
       ret ∅).

Definition request_mac_summary (env : Env) : M dict :=
  log_info_requesting "MAC Summary" ;;
  output <- send_command env DISPLAY_MAC_SUMMARY None ;;
  mac_summary <- _return_mac_summary env output ;;
  log_info_requested "MAC Summary" ;;
  ret mac_summary.

Definition get_command_and_regex_dot1x_users (env : Env) : M (option (string * regex)) :=
  platform <- hardware_platform env ;;
  if decide (platform = VStr "S") then
    log DEBUG "Determined for requesting Dot1x users" ;;
    ret (Some HuaweiS.get_command_and_regex_dot1x_users)
  else
    log INFO "Can't request 802.1x users info for non-S series switches" ;;
    ret None.

Definition get_command_and_regex_mac_users (env : Env) : M (option (string * regex)) :=
  platform <- hardware_platform env ;;
  if decide (platform = VStr "S") then
    log DEBUG "Determined for requesting MAB users" ;;
    ret (Some HuaweiS.get_command_and_regex_mac_users)
  else
    log INFO "Can't request MAC users info for non-S series switches" ;;
    ret None.

(** [_return_mab_users_number] and [_return_dot1x_users_number] differ
    only in the name they log. *)
Definition _return_users_number (what : string) (regex : regex)
    (output_display_access_user : string) : M value :=
  let m := search false regex output_display_access_user in
  catch AttributeError
    (total <- group_of regex m "total" ;;
     users_number <- lift (py_int total) ;;
     log_match_found what ;;
     ret (VInt users_number))
    (if contains "No online user" output_display_access_user then ret (VStr "No one")
     else
       log_match_error what ;;
       ret (VStr "N/A")).

Definition _return_mab_users_number := _return_users_number "MAB users".
Definition _return_dot1x_users_number := _return_users_number "Dot1x users".

Definition request_mab_users_number (env : Env) : M value :=
  cr <- get_command_and_regex_mac_users env ;;
  log_info_requesting "MAB users" ;;
  match cr with
  | None => ret (VStr "")
  | Some (command, regex) =>
      output <- send_command env command None ;;
      users_number <- _return_mab_users_number regex output ;;
      log_info_requested "MAB users" ;;
      ret users_number
  end.

Definition request_dot1x_users_number (env : Env) : M value :=
  cr <- get_command_and_regex_dot1x_users env ;;
  log_info_requesting "Dot1x users" ;;
  match cr with
  | None => ret (VStr "")
  | Some (command, regex) =>
      output <- send_command env command None ;;
      users_number <- _return_dot1x_users_number regex output ;;
      log_info_requested "Dot1x users" ;;
      ret users_number
  end.

Definition request_access_users_number (env : Env) : M dict :=
  dot1x <- request_dot1x_users_number env ;;
  mab <- request_mab_users_number env ;;
  ret (<["dot1x_users_number" := dot1x]> (<["mab_users_number" := mab]> (∅ : dict))).

(** [_return_regex_search_result]: the matched group, the integer [0] when
    nothing matches, [None] after any other exception. *)
Definition _return_regex_search_result (text : string) (regex : regex)
    (group_name : string) : M value :=
  let m := search false regex text in
  try_except
    (result <- group_of regex m group_name ;;
     log_match_found group_name ;;
     ret result)
    (fun e =>
       match e with
       | AttributeError =>
           log_match_found group_name ;;
           ret (VInt 0)
       | _ =>
           log_match_error group_name ;;
           ret VNone
       end).

Fixpoint routes_loop (output : string) (regexes : list (string * regex))
    (total_routes : dict) : M dict :=
  match regexes with
  | [] => ret total_routes
  | (key, regex) :: rest =>
      v <- _return_regex_search_result output regex "routes_number" ;;
      routes_loop output rest (<[key := v]> total_routes)
  end.

Definition request_all_vrf_routes_number (env : Env) : M dict :=
  log_info_requesting "all-vpn-instances routes number" ;;
  output <- send_command env DISPLAY_ROUTES_SUMMARY None ;;
  total_routes <- routes_loop output REGEX_ROUTES_SUMMARY ∅ ;;
  log_info_requested "all-vpn-instances routes number" ;;
  ret total_routes.

Definition _return_total_number_vrf (output_display_ip_vpn_instances : string)
    : M value :=
  let m := search false regex_vrf_total output_display_ip_vpn_instances in
  catch AttributeError
    (number <- group_of regex_vrf_total m "number" ;;
     result <- lift (py_int number) ;;
     log_match_found "Total VPN-Instances" ;;
     ret (VInt result))
    (if String.eqb output_display_ip_vpn_instances "" then ret (VInt 0)
     else
       log_match_error "Total VPN-Instances" ;;
       ret (VStr "N\A")).

Definition request_all_vrf_list (env : Env) : M string :=
  log_info_requesting "all VRF list" ;;
  output <- send_command env DISPLAY_IP_VRF None ;;
  vrf_list <- mapM (fun m => group_str regex_vrf_name m "vrf_name")
                   (finditer false regex_vrf_name output) ;;
  total <- _return_total_number_vrf output ;;
  let result_text := "VRF: " +:+ py_str total +:+ ": " +:+ join ", " vrf_list in
  log_info_requested "all VRF list" ;;
  ret result_text.

End HuaweiSSH.

(** ** The collectors *)

(** One row of the report. *)
Abbreviation row := (list value).

(** What one host task leaves behind: how it ended, the report after it,
    and what it did, in order. *)
Record outcome := {
  ended : result unit;
  report : list row;
  events : list event
}.

Module BaseCollector.

(** The host dictionary [{'hostname': ..., 'mgmt_ip': ...}] *)
Record Host := {
  hostname : value;
  mgmt_ip : value
}.

(** [get_host_from_line(line, regex, comment_sign)]; only [AttributeError]
    is handled, and [comment_sign] is not consulted. *)
Definition get_host_from_line (line : string) (regex : regex) (comment_sign : string)
    : result (option Host) :=
  if startswith "#" line then Ok None
  else
    match search false regex line with
    | None => Ok None
    | Some m =>
        match group regex m "hostname" with
        | Raise e => Raise e
        | Ok h =>
            match group regex m "ipv4_address" with
            | Raise e => Raise e
            | Ok ip => Ok (Some {| hostname := h; mgmt_ip := ip |})
            end
        end
    end.

(** [get_hosts_from_file] and [iter_hosts_from_file], on the lines read
    from the file. *)
Fixpoint hosts_from_lines (lines : list string) (regex : regex) (comment_sign : string)
    : result (list Host) :=
  match lines with
  | [] => Ok []
  | line :: rest =>
      match get_host_from_line line regex comment_sign with
      | Raise e => Raise e
      | Ok host =>
          match hosts_from_lines rest regex comment_sign with
          | Raise e => Raise e
          | Ok hosts =>
              Ok (match host with Some h => h :: hosts | None => hosts end)
          end
      end
  end.

Fixpoint send_all (env : Env) (commands : list string) : M unit :=
  match commands with
  | [] => ret tt
  | cmd :: rest =>
      _ <- BaseSSH.send_command env cmd None ;;
      send_all env rest
  end.

(** [BaseCollector.run_for_device(host_info, commands)] *)
Definition run_for_device (default_device_type : value) (env : Env)
    (host_info : Host) (commands : list string) (csv : list row) : outcome :=
  match commands with
  | [] => {| ended := Ok tt; report := csv; events := [] |}
  | _ =>
      let ssh_host := BaseSSH.init (mgmt_ip host_info) (hostname host_info) in
      let '(r, s) :=
        (BaseSSH.connect_ssh env default_device_type ;;
         lib <- BaseSSH.ssh_lib_type ;;
         match lib with
         | Some _ =>
             send_all env commands ;;
             parent_log WARNING "Done"
         | None => ret tt
         end ;;
         BaseSSH.disconnect_ssh env) ssh_host in
      {| ended := r; report := csv;
         events := EvLog DEBUG "Trying to create host" :: trace s |}
  end.

(** A task submitted without the [commands] argument cannot call
    [run_for_device], which has no default for it. *)
Definition run_for_device_task (default_device_type : value) (env : Env)
    (host_info : Host) (args : option (list string)) (csv : list row) : outcome :=
  match args with
  | None => {| ended := Raise TypeError; report := csv; events := [] |}
  | Some commands => run_for_device default_device_type env host_info commands csv
  end.

(** [run(function, hosts, args)]: one task per host is submitted to the
    pool, with [args] only when it is not empty, and an exception of a
    task stays in its future. The tasks share nothing but the report,
    which they append to under a lock, so the run is modelled as the tasks
    taken one after the other; [network] gives each host its transport.
    Returns the report and the events of every task. *)
Fixpoint run (function : Env -> Host -> option (list string) -> list row -> outcome)
    (network : Host -> Env) (hosts : list Host) (args : list string)
    (csv : list row) : list row * list (list event) :=
  match hosts with
  | [] => (csv, [])
  | host :: rest =>
      let passed := match args with [] => None | _ => Some args end in
      let o := function (network host) host passed csv in
      let '(csv', evs) := run function network rest args (report o) in
      (csv', events o :: evs)
  end.

(** The numeric value of a level of the [logging] module. *)
Definition level_number (l : level) : Z :=
  match l with
  | DEBUG => 10
  | INFO => 20
  | WARNING => 30
  | ERROR => 40
  | CRITICAL => 50
  end%Z.

(** The three entries [set_logging_levels] assigns:
    [log_settings['log_console_level']], [log_settings['log_file_level']]
    and [host_log_settings['log_file_level']]; [None] for a missing key. *)
Record log_levels := {
  log_console_level : option level;
  log_file_level : option level;
  host_log_file_level : option level
}.

(** [set_logging_levels(count)]: the first [if] stands alone, the three
    other tests form one chain. *)
Definition set_logging_levels (count : Z) (settings : log_levels) : log_levels :=
  let settings :=
    if (count =? 0)%Z then
      {| log_console_level := Some ERROR; log_file_level := Some INFO;
         host_log_file_level := Some WARNING |}
    else settings in
  if (count =? 1)%Z then
    {| log_console_level := Some WARNING; log_file_level := Some INFO;
       host_log_file_level := Some WARNING |}
  else if (count =? 2)%Z then
    {| log_console_level := Some INFO; log_file_level := Some DEBUG;
       host_log_file_level := Some INFO |}
  else if (count =? 3)%Z then
    {| log_console_level := Some DEBUG; log_file_level := Some DEBUG;
       host_log_file_level := Some DEBUG |}
  else settings.

End BaseCollector.

(** [CustomerHostnames], a module of the repository whose source is not
    available: its three functions are parameters of the collector. *)
Record CustomerHostnames := {
  get_geolocation_from_sysname : value -> result value;
  get_segment_from_sysname : value -> result value;
  get_role_from_sysname : value -> result value
}.

Module HuaweiCollector.
Import BaseCollector.

(** [COLUMNS_HEADER]: column key, then title, width and comment, in the
    order of the dict. *)
Definition COLUMNS_HEADER : list (string * (string * Z * string)) :=
  [("geo", ("Location", 10%Z, ""));
   ("segment", ("Segment", 8%Z, ""));
   ("role", ("Role", 8%Z, ""));
   ("hostname", ("Hostname", 39%Z, "Got using 'display cur | i sysname' command"));
   ("mgmt_ip", ("MGMT IP", 17%Z, ""));
   ("hardware", ("Hadware", 21%Z, "Got using 'display version' command"));
   ("software_version", ("Software version", 21%Z, ""));
   ("patch_version", ("Patch version", 20%Z, ""));
   ("uptime", ("Last reboot date", 22%Z,
               "Calculated using 'display version' command.
Format: YEAR-MONTH-DAY"));
   ("esn_chassis", ("ESN Chassis", 24%Z, "ESN of chassis, got using 'display ESN' command"));
   ("main_boards_list", ("Boards", 22%Z,
                         "Boards from 'display device' output excepting Power and Fan boards"));
   ("stack_info", ("Stack", 17%Z, ""));
   ("in_used", ("MAC Used", 10%Z,
                "In-used mac-address from 'display mac-address summary' command's output"));
   ("capacity", ("MAC Capacity", 10%Z, ""));
   ("memory_usage", ("Memory Usage", 10%Z, "Memory Usage in percentage"));
   ("mab_users_number", ("MAB users", 10%Z,
                         "Total number of MAB users, got using 'display access-user access-type mac-authen' command. For S switches only."));
   ("dot1x_users_number", ("802.1x users", 10%Z,
                           "Total number of 802.1x users, got using 'display access-user access-type dot1x' command. For S switches only."));
   ("vrf", ("VRF", 15%Z, ""));
   ("total", ("Total Routes", 6%Z,
              "Column 'total routes' from 'display ip routing-table all-vpn-instance statistics' command's output"));
   ("bgp", ("BGP", 6%Z, ""));
   ("ospf", ("OSPF", 6%Z, ""));
   ("isis", ("IS-IS", 6%Z, ""));
   ("static", ("Static", 6%Z, ""));
   ("direct", ("Direct", 6%Z, ""));
   ("updated", ("Updated", 24%Z,
                "Date when information about this device was collected last time."))].

(** The settings of a collector the model depends on. *)
Record collector := {
  _check_list : gmap string bool;
  default_device_type : value;
  customer : CustomerHostnames
}.

(** The class-level [_check_list] *)
Definition default_check_list : gmap string bool :=
  list_to_map
    [("common", true); ("lldp", false); ("stack", true); ("esn_chassis", false);
     ("esn_full", false); ("all_boards_list", false); ("main_boards_list", false);
     ("mac_summary", false); ("routes_summary", false); ("access_users_mab", false);
     ("access_users_dot1x", false); ("vrf", false); ("resources", false)].

Definition get_report_header : list string :=
  map (fun column => fst (fst (snd column))) COLUMNS_HEADER.

(** [get_report_row(host_info)] *)
Definition get_report_row (host_info : dict) : row :=
  map (fun key => default (VStr "Error") (host_info !! key)) (map fst COLUMNS_HEADER).

(** The [try] block of [request_common_info]: the first function of
    [CustomerHostnames] that raises ends it, and the keys set before stay. *)
Definition add_customer_fields (c : collector) (host_ip : string) (properties : dict)
    : M dict :=
  let sysname := default VNone (properties !! "hostname") in
  match get_geolocation_from_sysname (customer c) sysname with
  | Raise _ => parent_log ERROR "exception for common_error" ;; ret properties
  | Ok geo =>
      let properties := <["geo" := geo]> properties in
      match get_segment_from_sysname (customer c) sysname with
      | Raise _ => parent_log ERROR "exception for common_error" ;; ret properties
      | Ok segment =>
          let properties := <["segment" := segment]> properties in
          match get_role_from_sysname (customer c) sysname with
          | Raise _ => parent_log ERROR "exception for common_error" ;; ret properties
          | Ok role =>
              ret (<["mgmt_ip" := VStr host_ip]> (<["role" := role]> properties))
          end
      end
  end.

(** [HuaweiCollector.request_common_info(host_huawei)] *)
Definition request_common_info (c : collector) (env : Env) : M dict :=
  if default false (_check_list c !! "common") then
    properties <- HuaweiSSH.request_common_info env true ;;
    s <- get ;;
    add_customer_fields c (ip_address s) properties
  else ret ∅.

(** [host_huawei.request_memory_usage()]: [HuaweiSSH] defines
    [request_memory_usage_percentage] and no [request_memory_usage], so
    the attribute lookup raises [AttributeError]. *)
Definition request_memory_usage : M value := raise AttributeError.

(** [', '.join(l)] on the list [request_boards_list] returned *)
Fixpoint board_lines (l : list HuaweiSSH.board_item) : result (list string) :=
  match l with
  | [] => Ok []
  | HuaweiSSH.BoardLine s :: t =>
      match board_lines t with
      | Ok ls => Ok (s :: ls)
      | Raise e => Raise e
      end
  | HuaweiSSH.BoardDict _ :: _ => Raise TypeError
  end.

(** [request_all_for_device(host_huawei)] *)
Definition request_all_for_device (c : collector) (env : Env) : M dict :=
  common <- request_common_info c env ;;
  stack <- HuaweiSSH.request_stack_brief_info env true true ;;
  mac <- HuaweiSSH.request_mac_summary env ;;
  routes <- HuaweiSSH.request_all_vrf_routes_number env ;;
  users <- HuaweiSSH.request_access_users_number env ;;
  let properties : dict := users ∪ (routes ∪ (mac ∪ (stack ∪ common))) in
  esn <- HuaweiSSH.request_esn_chassis env ;;
  let properties := <["esn_chassis" := VStr (join ", " esn)]> properties in
  boards <- HuaweiSSH.request_boards_list env true false ;;
  lines <- lift (board_lines boards) ;;
  let properties := <["main_boards_list" := VStr (join ", " lines)]> properties in
  vrf <- HuaweiSSH.request_all_vrf_list env ;;
  let properties := <["vrf" := VStr vrf]> properties in
  usage <- request_memory_usage ;;
  let properties := <["memory_usage" := VStr (py_str usage +:+ "%")]> properties in
  updated <- BaseSSH.change_datetime env ;;
  let properties := <["updated" := VStr updated]> properties in
  ret properties.

(** [HuaweiCollector.run_for_device(host_info, commands='')]. [results]
    is bound only when [request_all_for_device] returned: otherwise
    writing the row raises [UnboundLocalError], which is passed over, and
    the log call after it raises it again. *)
Definition run_for_device (c : collector) (env : Env) (host_info : Host)
    (commands : option (list string)) (csv : list row) : outcome :=
  let host := BaseSSH.init (mgmt_ip host_info) (hostname host_info) in
  let '(r, s) :=
    (BaseSSH.connect_ssh env (default_device_type c) ;;
     lib <- BaseSSH.ssh_lib_type ;;
     results <- match lib with
                | Some _ =>
                    try_except
                      (results <- request_all_for_device c env ;;
                       ret (Some results))
                      (fun _ =>
                         parent_log ERROR "Exception for host" ;;
                         ret None)
                | None => ret None
                end ;;
     BaseSSH.disconnect_ssh env ;;
     ret results) host in
  let evs := EvLog DEBUG "Creating HuaweiSSH" :: trace s in
  match r with
  | Raise e => {| ended := Raise e; report := csv; events := evs |}
  | Ok None => {| ended := Raise UnboundLocalError; report := csv; events := evs |}
  | Ok (Some results) =>
      {| ended := Ok tt;
         report := csv ++ [get_report_row results];
         events := evs ++ [EvLog DEBUG "Wrote to csv";
                           EvLog INFO "collected result";
                           EvLog WARNING "Done"] |}
  end.

(** [run_for_files]: the header row, then one task per host of the list. *)
Definition run_for_files (c : collector) (network : Host -> Env)
    (lines : list string) (regex : regex) (comment_sign : string)
    (commands : list string) : result (list row * list (list event)) :=
  let csv := [map VStr get_report_header] in
  match hosts_from_lines lines regex comment_sign with
  | Raise e => Raise e
  | Ok hosts => Ok (run (run_for_device c) network hosts commands csv)
  end.

End HuaweiCollector.

(** ** Example hosts and devices *)

Module Examples.

(** [display version] of a CE switch and of an S switch, as in the
    docstrings of [HuaweiSSH]. *)
Definition version_CE : string :=
  "Huawei Versatile Routing Platform Software
VRP (R) software, Version 8.180 (CE6860EI V200R005C10SPC800)
Copyright (C) 2012-2018 Huawei Technologies Co., Ltd.
HUAWEI CE6860-48S8CQ-EI uptime is 4 days, 8 hours, 22 minutes
Patch Version: V200R005SPH008".

Definition version_S : string :=
  "Huawei Versatile Routing Platform Software
VRP (R) software, Version 5.170 (S5720 V200R011C10SPC600)
Copyright (C) 2000-2018 HUAWEI TECH Co., Ltd.
HUAWEI S5720-52P-LI-AC Routing Switch uptime is 11 weeks, 5 days, 9 hours, 17 minutes".

(** A [display device] table with a single board row. *)
Definition device_one_board : string :=
  "S5720-52P-LI-AC's Device status:
Slot Sub  Type                   Online    Power    Register     Status   Role
-------------------------------------------------------------------------------
0    -    S5720-52P-LI-AC        Present   PowerOn  Registered   Normal   Master
".

(** An S switch that answers the commands of the collector. *)
Definition respond_S (n : nat) (command : string) : result string :=
  if String.eqb command DISPLAY_VERSION then Ok version_S
  else if String.eqb command DISPLAY_PATCH then Ok "Info: No patch exists."
  else if String.eqb command DISPLAY_SYSNAME then Ok "sysname ToR-R1"
  else if String.eqb command DISPLAY_DEVICE then Ok device_one_board
  else Ok "".

(** 2020-04-01 12:30:00 and 2020-04-02 12:30:00, in seconds. *)
Definition t_2020_04_01 : Z := 63721341000.
Definition t_2020_04_02 : Z := 63721427400.

Definition env_S (now : Z) : Env :=
  {| transport_connect := fun _ => Connected;
     transport_shell := true;
     transport_respond := respond_S;
     transport_disconnect := true;
     clock := fun _ => now |}.


Definition SW1 : BaseCollector.Host :=
  {| BaseCollector.hostname := VStr "SW1"; BaseCollector.mgmt_ip := VStr "10.0.0.1" |}.


(** A freshly built session object, and the same after a successful
    Netmiko connection. *)
Definition fresh : session := BaseSSH.init (VStr "10.0.0.1") (VStr "SW1").

Definition connected : session :=
  snd (BaseSSH.connect_ssh (env_S t_2020_04_01) (VStr "huawei") fresh).

(** A session that already knows the hardware of its host. *)
Definition knowing (hw : string) : session :=
  snd (set_hardware (VStr hw) connected).

Definition customer_hostnames : CustomerHostnames :=
  {| get_geolocation_from_sysname := fun _ => Ok (VStr "MSK");
     get_segment_from_sysname := fun _ => Ok (VStr "DC");
     get_role_from_sysname := fun _ => Ok (VStr "ToR") |}.

(** A collector with the given check list. *)
Definition collector_with (checks : gmap string bool) : HuaweiCollector.collector :=
  {| HuaweiCollector._check_list := checks;
     HuaweiCollector.default_device_type := VStr "huawei";
     HuaweiCollector.customer := customer_hostnames |}.

(** Every check switched off. *)
Definition no_checks : gmap string bool :=
  (fun _ => false) <$> HuaweiCollector.default_check_list.

End Examples.

(** More example devices. *)
Module Scenarios.

(** A switch that does not recognise [display version]. *)
Definition respond_unrecognized (n : nat) (command : string) : result string :=
  if String.eqb command DISPLAY_VERSION
  then Ok "Error: Unrecognized command found at '^' position."
  else Examples.respond_S n command.

Definition env_unrecognized : Env :=
  {| transport_connect := fun _ => Connected;
     transport_shell := true;
     transport_respond := respond_unrecognized;
     transport_disconnect := true;
     clock := fun _ => Examples.t_2020_04_01 |}.


End Scenarios.

(** ** Observations on the events of a host task *)

(** The texts written to the remote shell, in order. *)
Fixpoint commands_sent (t : list event) : list string :=
  match t with
  | [] => []
  | EvSend command :: rest => command :: commands_sent rest
  | _ :: rest => commands_sent rest
  end.

(** Whether a connection was attempted. *)
Definition connection_attempted (t : list event) : bool :=
  existsb (fun e => match e with EvConnect _ => true | _ => false end) t.



(** The state of a session after the run of a computation. *)
Definition after {A} (m : M A) (s : session) : session := (m s).2.

(** The [uptime] field of a result of [request_common_info]. *)
Definition uptime_field (r : result dict * session) : option value :=
  match r.1 with
  | Ok d => d !! "uptime"
  | Raise _ => None
  end.

(** A session with a logger and an open Netmiko connection. *)
Definition netmiko_ready (s : session) : Prop :=
  _logger s = true /\ _ssh_lib_type s = Some SSH_LIB_NETMIKO.

(** What [send_command] hands back for the reply of the transport: the
    text, or the empty string when the transport raised. *)
Definition reply_text (r : result string) : string :=
  match r with
  | Ok output => output
  | Raise _ => ""
  end.

(** What [_return_regex_search_result] yields for one pattern of the routes
    table: the captured number, or the integer 0 when the pattern is not
    found. *)
Definition route_value (output : string) (regex : regex) : value :=
  match search false regex output with
  | Some m =>
      match group regex m "routes_number" with
      | Ok v => v
      | Raise _ => VNone
      end
  | None => VInt 0
  end.

(** More verbose means a smaller number. *)
Definition at_least_as_verbose (a b : option level) : Prop :=
  match a, b with
  | Some x, Some y => (BaseCollector.level_number x <= BaseCollector.level_number y)%Z
  | _, _ => False
  end.


(** The replies to [commands] when they are written one after the other,
    the first as the [n]-th text of the session, concatenated. *)
Fixpoint replies (env : Env) (n : nat) (commands : list string) : string :=
  match commands with
  | [] => ""
  | command :: rest =>
      reply_text (transport_respond env n command) +:+ replies env (S n) rest
  end.


(** A device that answers every command with the same text. *)
Definition env_replying (text : string) : Env :=
  {| transport_connect := fun _ => Connected;
     transport_shell := true;
     transport_respond := fun _ _ => Ok text;
     transport_disconnect := true;
     clock := fun _ => Examples.t_2020_04_01 |}.

(** * Properties *)

Section Monad_facts.
Context {A B : Type}.

Lemma bind_ok (m : M A) (f : A -> M B) s a s' :
  m s = (Ok a, s') -> bind m f s = f a s'.
Proof. intros H. unfold bind. by rewrite H. Qed.

Lemma bind_raise (m : M A) (f : A -> M B) s e s' :
  m s = (Raise e, s') -> bind m f s = (Raise e, s').
Proof. intros H. unfold bind. by rewrite H. Qed.

(** Two computations that agree step by step agree when sequenced. *)
Lemma bind_ext (m1 m2 : M A) (f1 f2 : A -> M B) s :
  m1 s = m2 s -> (forall a s', f1 a s' = f2 a s') -> bind m1 f1 s = bind m2 f2 s.
Proof.
  intros Hm Hf. unfold bind. rewrite Hm.
  destruct (m2 s) as [[a|e] s']; [apply Hf | reflexivity].
Qed.
End Monad_facts.

Lemma log_ok l msg s :
  _logger s = true -> log l msg s = (Ok tt, with_trace (trace s ++ [EvLog l msg]) s).
Proof. intros H. unfold log, bind, get. by rewrite H. Qed.

Lemma log_no_logger l msg s :
  _logger s = false -> log l msg s = (Raise AttributeError, s).
Proof. intros H. unfold log, bind, get. by rewrite H. Qed.

(** ** C1: the report row *)

Lemma COLUMNS_HEADER_keys_distinct : NoDup (map fst HuaweiCollector.COLUMNS_HEADER).
Proof. compute_done. Qed.

(** C1. Every emitted row holds exactly one value for every column of
    [COLUMNS_HEADER], in the order of the schema (so it is as long as the
    header row), and the value of a column whose key the host dictionary
    lacks is the sentinel "Error". *)
Theorem C1_report_row_rectangular (host_info : dict) :
  length (HuaweiCollector.get_report_row host_info)
    = length HuaweiCollector.COLUMNS_HEADER
  /\ length (HuaweiCollector.get_report_row host_info)
    = length HuaweiCollector.get_report_header
  /\ forall i : nat,
      HuaweiCollector.get_report_row host_info !! i
      = (fun key => match host_info !! key with
                    | Some v => v
                    | None => VStr "Error"
                    end) <$> (map fst HuaweiCollector.COLUMNS_HEADER !! i).
Proof.
  unfold HuaweiCollector.get_report_row, HuaweiCollector.get_report_header.
  rewrite !length_map. split; [reflexivity | split; [reflexivity |]].
  intros i.
  generalize (map fst HuaweiCollector.COLUMNS_HEADER). intros keys. revert i.
  induction keys as [|k keys IH]; intros i.
  - destruct i; reflexivity.
  - destruct i as [|i]; simpl.
    + unfold default. destruct (host_info !! k); reflexivity.
    + apply IH.
Qed.

(** ** C8: parsing the host list *)

(** A comment line yields no host, whatever the pattern. *)
Lemma get_host_from_line_comment rest regex comment_sign :
  BaseCollector.get_host_from_line ("#" +:+ rest) regex comment_sign = Ok None.
Proof.
  unfold BaseCollector.get_host_from_line, startswith. simpl.
  destruct rest; reflexivity.
Qed.

(** C8. The line "SW1, 10.0.0.1" yields exactly the host SW1 at 10.0.0.1;
    a line beginning with '#' and the line "not-a-host-line" yield no host
    and no error, so a list of the three lines yields that one host. *)
Theorem C8_host_list_parsing :
  BaseCollector.get_host_from_line "SW1, 10.0.0.1" DEVICES_LST_LINE_REGEX "#"
    = Ok (Some {| BaseCollector.hostname := VStr "SW1";
                  BaseCollector.mgmt_ip := VStr "10.0.0.1" |})
  /\ (forall rest : string,
        BaseCollector.get_host_from_line ("#" +:+ rest) DEVICES_LST_LINE_REGEX "#"
        = Ok None)
  /\ BaseCollector.get_host_from_line "not-a-host-line" DEVICES_LST_LINE_REGEX "#"
     = Ok None
  /\ BaseCollector.hosts_from_lines
       ["# SW0, 10.0.0.0"; "SW1, 10.0.0.1"; "not-a-host-line"]
       DEVICES_LST_LINE_REGEX "#"
     = Ok [{| BaseCollector.hostname := VStr "SW1";
              BaseCollector.mgmt_ip := VStr "10.0.0.1" |}].
Proof.
  split; [vm_compute; reflexivity |].
  split; [intros rest; apply get_host_from_line_comment |].
  split; vm_compute; reflexivity.
Qed.

(** ** C4: the platform class *)

(** The loop of [hardware_platform] returns the first platform, in the
    order of the registry, whose pattern is found. *)
Lemma platform_of_first_match platforms hw (i : nat) p r :
  platforms !! i = Some (p, r) ->
  is_Some (search false r hw) ->
  (forall (j : nat) q, (j < i)%nat -> platforms !! j = Some q -> search false q.2 hw = None) ->
  HuaweiSSH.platform_of platforms hw = VStr p.
Proof.
  revert i. induction platforms as [|[p0 r0] rest IH]; intros i Hi Hm Hbefore.
  - destruct i; discriminate.
  - destruct i as [|i]; simpl in *.
    + injection Hi as -> ->. destruct Hm as [m ->]. reflexivity.
    + pose proof (Hbefore 0%nat (p0, r0) ltac:(lia) eq_refl) as H0.
      simpl in H0. rewrite H0.
      apply (IH i); [assumption .. |].
      intros j q Hj Hq. apply (Hbefore (S j) q); [lia | assumption].
Qed.

Lemma platform_of_no_match platforms hw :
  Forall (fun q => search false q.2 hw = None) platforms ->
  HuaweiSSH.platform_of platforms hw = VNone.
Proof.
  induction 1 as [|[p r] rest Hr _ IH]; simpl in *; [reflexivity |].
  by rewrite Hr.
Qed.

(** C4, as amended. Once the hardware text of the host is known, the
    property [hardware_platform] returns, without any I/O, the first
    platform of [HARDWARE_PLATFORMS] (CE, then S, then USG) whose pattern is
    found in the text; CE comes first, so a text in which both the CE and
    the S pattern are found resolves to CE. *)
Theorem C4_first_match_in_registry_order
    (env : Env) (s : session) (hw : string) (i : nat) (p : string) (r : regex) :
  _hardware s = VStr hw ->
  hw <> "" ->
  HARDWARE_PLATFORMS !! i = Some (p, r) ->
  is_Some (search false r hw) ->
  (forall (j : nat) q,
      (j < i)%nat -> HARDWARE_PLATFORMS !! j = Some q -> search false q.2 hw = None) ->
  HuaweiSSH.hardware_platform env s = (Ok (VStr p), s)
  /\ HARDWARE_PLATFORMS !! 0%nat = Some ("CE", lits "CE").
Proof.
  intros Hhw Hne Hi Hm Hbefore. split; [| reflexivity].
  unfold HuaweiSSH.hardware_platform, BaseSSH.hardware, bind, get, ret.
  rewrite Hhw. unfold or_None, truthy.
  cbn -[HuaweiSSH.platform_of HARDWARE_PLATFORMS].
  destruct (String.eqb hw "") eqn:E; [apply String.eqb_eq in E; congruence |].
  cbn -[HuaweiSSH.platform_of HARDWARE_PLATFORMS]. rewrite E.
  cbn -[HuaweiSSH.platform_of HARDWARE_PLATFORMS].
  by rewrite (platform_of_first_match _ _ _ _ _ Hi Hm Hbefore).
Qed.

(** The hardware text of a CE switch: the S pattern is found in it as well
    as the CE pattern, and the class is CE. *)
Lemma C4_first_match_witness :
  _hardware (Examples.knowing "CE6860-48S8CQ-EI") = VStr "CE6860-48S8CQ-EI"
  /\ is_Some (search false (seq [lits "S"; d_plus]) "CE6860-48S8CQ-EI")
  /\ HuaweiSSH.hardware_platform (Examples.env_S 0) (Examples.knowing "CE6860-48S8CQ-EI")
     = (Ok (VStr "CE"), Examples.knowing "CE6860-48S8CQ-EI").
Proof.
  split; [reflexivity |]. split; [vm_compute; eauto |].
  apply (C4_first_match_in_registry_order
           (Examples.env_S 0) (Examples.knowing "CE6860-48S8CQ-EI")
           "CE6860-48S8CQ-EI" 0 "CE" (lits "CE")).
  - reflexivity.
  - discriminate.
  - reflexivity.
  - vm_compute. eauto.
  - intros j q Hj. lia.
Defined.

(** The claim as stated fails: in the hardware text "CE6860-48S8CQ-EI" both
    the S pattern and the CE pattern are found, and the class is not S. *)
Lemma C4_counterexample :
  ~ (forall hw : string,
        is_Some (search false (seq [lits "S"; d_plus]) hw) ->
        is_Some (search false (lits "CE") hw) ->
        HuaweiSSH.platform_of HARDWARE_PLATFORMS hw = VStr "S").
Proof.
  intros H. specialize (H "CE6860-48S8CQ-EI").
  assert (HuaweiSSH.platform_of HARDWARE_PLATFORMS "CE6860-48S8CQ-EI" = VStr "CE") as E
    by (vm_compute; reflexivity).
  rewrite E in H. discriminate H; vm_compute; eauto.
Qed.

(** ** C6: the patch version *)

(** When the version pattern is found, the captured text is returned. *)
Lemma return_patch_captured output s m :
  _logger s = true ->
  search false regex_patch output = Some m ->
  exists v,
    assoc "patch_version" (m_caps m) = v /\
    HuaweiSSH._return_patch output s
    = (Ok (VStr (py_str (match v with
                         | Some txt => VStr (string_of_list_ascii txt)
                         | None => VNone
                         end))),
       with_trace (trace s ++ [EvLog DEBUG "Got Patch version"]) s).
Proof.
  intros Hl Hm. eexists. split; [reflexivity |].
  unfold HuaweiSSH._return_patch, try_except, bind, group_of, lift. rewrite Hm.
  unfold group. simpl.
  destruct (assoc "patch_version" (m_caps m));
    unfold HuaweiSSH.log_match_found; rewrite log_ok by assumption; reflexivity.
Qed.

(** C6, the part the code gets wrong. When the version pattern is not
    found, [_return_patch] returns 'No patch' if the confirmation text is
    found and [None] otherwise; the 'N/A' of its docstring is never
    returned. *)
Theorem C6_return_patch_without_version (output : string) (s : session) :
  search false regex_patch output = None ->
  HuaweiSSH._return_patch output s
  = (Ok (if HuaweiSSH._is_no_patch_exists output then VStr "No patch" else VNone), s).
Proof.
  intros Hm.
  unfold HuaweiSSH._return_patch, try_except, bind, group_of. rewrite Hm.
  unfold raise. destruct (HuaweiSSH._is_no_patch_exists output); reflexivity.
Qed.

(** An output that is neither a patch table nor the confirmation. *)
Lemma C6_return_patch_witness :
  search false regex_patch "Error: Unrecognized command found at '^' position." = None
  /\ HuaweiSSH._return_patch "Error: Unrecognized command found at '^' position."
       Examples.connected
     = (Ok VNone, Examples.connected).
Proof.
  split; [vm_compute; reflexivity |].
  apply (C6_return_patch_without_version
           "Error: Unrecognized command found at '^' position." Examples.connected).
  vm_compute. reflexivity.
Defined.

(** ** C9: a command on a session that was never connected *)



(** ** C10: the list of boards *)

Lemma bind_inv_ok {A B} (m : M A) (f : A -> M B) s b s' :
  bind m f s = (Ok b, s') -> exists a s1, m s = (Ok a, s1) /\ f a s1 = (Ok b, s').
Proof.
  unfold bind. destruct (m s) as [[a|e] s1]; [eauto | discriminate].
Qed.

(** The loop appends at most one board per match. *)
Lemma boards_loop_length regex matches boards :
  (length (HuaweiSSH.boards_loop regex matches boards).1
   <= length boards + length matches)%nat.
Proof.
  revert boards. induction matches as [|m rest IH]; intros boards; simpl; [lia |].
  destruct (group regex m "index"); [| simpl; lia].
  destruct (group regex m "type"); [| simpl; lia].
  etransitivity; [apply IH |]. rewrite length_app. simpl. lia.
Qed.

Lemma return_boards_list_length regex output s boards s' :
  HuaweiSSH._return_boards_list (Some regex) output s = (Ok boards, s') ->
  (length boards <= length (finditer false regex output))%nat.
Proof.
  unfold HuaweiSSH._return_boards_list.
  pose proof (boards_loop_length regex (finditer false regex output) []) as Hlen.
  destruct (HuaweiSSH.boards_loop regex (finditer false regex output) [])
    as [bs interrupted]. simpl in Hlen.
  unfold try_except, bind. intros H.
  assert (boards = bs) as ->; [| exact Hlen].
  destruct interrupted as [e|].
  - unfold raise in H.
    destruct (HuaweiSSH.log_match_error "Boards List" s) as [[[]|e'] s1];
      [injection H as <- _; reflexivity | discriminate].
  - destruct (HuaweiSSH.log_match_found "Boards List" s) as [[[]|e'] s1].
    + injection H as <- _; reflexivity.
    + destruct (HuaweiSSH.log_match_error "Boards List" s1) as [[[]|e''] s2];
        [injection H as <- _; reflexivity | discriminate].
Qed.

(** C10. Whatever [request_boards_list] returns, it is never a list of one
    element; and when the pattern of the platform is found fewer than two
    times in the output of the device (so also exactly once), the list
    returned is empty. *)
Theorem C10_request_boards_list_never_single
    (env : Env) (printable flag_all_boards : bool) (s s' : session)
    (l : list HuaweiSSH.board_item) :
  HuaweiSSH.request_boards_list env printable flag_all_boards s = (Ok l, s') ->
  length l <> 1%nat
  /\ forall regex s1 output s2,
      HuaweiSSH.get_regex_request_boards_list env flag_all_boards s
        = (Ok (Some regex), s1) ->
      bind (HuaweiSSH.log_info_requesting "Boards list")
           (fun _ => BaseSSH.send_command env DISPLAY_DEVICE None) s1 = (Ok output, s2) ->
      (length (finditer false regex output) < 2)%nat ->
      l = [].
Proof.
  intros H. unfold HuaweiSSH.request_boards_list in H.
  apply bind_inv_ok in H as (rx & s1 & Hrx & H).
  apply bind_inv_ok in H as ([] & s1' & Hlog & H).
  apply bind_inv_ok in H as (out & s2 & Hsend & H).
  apply bind_inv_ok in H as (boards & s3 & Hboards & H).
  apply bind_inv_ok in H as ([] & s4 & Hlog' & H).
  split.
  - destruct (length boards <? 2)%nat eqn:E.
    + injection H as <- _. discriminate.
    + apply Nat.ltb_ge in E.
      destruct printable; injection H as <- _; rewrite length_map; lia.
  - intros regex t1 output t2 Hrx' Hsend' Hfew.
    rewrite Hrx in Hrx'. injection Hrx' as -> <-.
    apply bind_inv_ok in Hsend' as ([] & t1' & Hlog2 & Hsend').
    rewrite Hlog in Hlog2. injection Hlog2 as <-.
    rewrite Hsend in Hsend'. injection Hsend' as <- <-.
    apply return_boards_list_length in Hboards.
    assert ((length boards <? 2)%nat = true) as E by (apply Nat.ltb_lt; lia).
    rewrite E in H. by injection H as <- _.
Qed.

(** An S switch whose [display device] table has exactly one board row:
    the pattern is found once, and no board is reported. *)
Lemma C10_request_boards_list_witness :
  length (finditer false (HuaweiS.get_regex_request_boards_list false)
                   Examples.device_one_board) = 1%nat
  /\ (HuaweiSSH.request_boards_list (Examples.env_S 0) true false
        (Examples.knowing "S5720-52P-LI-AC")).1 = Ok []
  /\ length ([] : list HuaweiSSH.board_item) <> 1%nat.
Proof.
  split; [vm_compute; reflexivity |]. split; [vm_compute; reflexivity |].
  apply (C10_request_boards_list_never_single (Examples.env_S 0) true false
           (Examples.knowing "S5720-52P-LI-AC")
           (HuaweiSSH.request_boards_list (Examples.env_S 0) true false
              (Examples.knowing "S5720-52P-LI-AC")).2 []).
  vm_compute. reflexivity.
Defined.

(** ** C7: extraction as a function of the text and of the clock *)

Lemma try_except_ext {A} (m1 m2 : M A) (h : exn -> M A) s :
  m1 s = m2 s -> try_except m1 h s = try_except m2 h s.
Proof. intros H. unfold try_except. by rewrite H. Qed.

(** The formatted date depends on the time through its minute only. *)
Lemma format_minutes_same_minute (t1 t2 : Z) :
  (t1 / 60 = t2 / 60)%Z -> Datetime.format_minutes t1 = Datetime.format_minutes t2.
Proof.
  intros H. unfold Datetime.format_minutes, Datetime.days_of.
  replace (t1 / 86400)%Z with (t1 / 60 / 1440)%Z by (rewrite Z.div_div by lia; reflexivity).
  replace (t2 / 86400)%Z with (t2 / 60 / 1440)%Z by (rewrite Z.div_div by lia; reflexivity).
  replace (t1 / 3600)%Z with (t1 / 60 / 60)%Z by (rewrite Z.div_div by lia; reflexivity).
  replace (t2 / 3600)%Z with (t2 / 60 / 60)%Z by (rewrite Z.div_div by lia; reflexivity).
  by rewrite H.
Qed.

Lemma minus_timedelta_same_minute (now1 now2 days minutes : Z) :
  (now1 / 60 = now2 / 60)%Z ->
  match Datetime.minus_timedelta now1 days minutes,
        Datetime.minus_timedelta now2 days minutes with
  | Ok t1, Ok t2 => (t1 / 60 = t2 / 60)%Z
  | Raise e1, Raise e2 => e1 = e2
  | _, _ => False
  end.
Proof.
  intros H. unfold Datetime.minus_timedelta.
  destruct (999999999 <? days + minutes * 60 / 86400)%Z; [reflexivity |].
  assert (forall now, ((now - (days * 86400 + minutes * 60)) / 60
                       = now / 60 - (days * 1440 + minutes))%Z) as Hdiv.
  { intros now.
    replace (now - (days * 86400 + minutes * 60))%Z
      with (now + (- (days * 1440 + minutes)) * 60)%Z by lia.
    rewrite Z.div_add by lia. lia. }
  assert (forall t, (t <? 0)%Z = (t / 60 <? 0)%Z) as Hneg.
  { intros t. destruct (t <? 0)%Z eqn:E1, (t / 60 <? 0)%Z eqn:E2; try reflexivity.
    - apply Z.ltb_lt in E1. apply Z.ltb_ge in E2.
      pose proof (Z.div_lt_upper_bound t 60 0). lia.
    - apply Z.ltb_ge in E1. apply Z.ltb_lt in E2.
      pose proof (Z.div_pos t 60). lia. }
  rewrite (Hneg (now1 - _)%Z), (Hneg (now2 - _)%Z), !Hdiv, H.
  destruct (now2 / 60 - (days * 1440 + minutes) <? 0)%Z; [reflexivity |].
  rewrite !Hdiv, H. reflexivity.
Qed.

Section Two_runs.
Variables env1 env2 : Env.
Hypothesis same_text :
  forall n command, transport_respond env1 n command = transport_respond env2 n command.

Lemma read_ext n text s : BaseSSH.read env1 n text s = BaseSSH.read env2 n text s.
Proof. unfold BaseSSH.read, lift. by rewrite same_text. Qed.

Lemma transmit_ext text s : BaseSSH.transmit env1 text s = BaseSSH.transmit env2 text s.
Proof.
  unfold BaseSSH.transmit. apply bind_ext; [reflexivity |].
  intros n s'. apply read_ext.
Qed.

Lemma send_command_ext command kwargs s :
  BaseSSH.send_command env1 command kwargs s = BaseSSH.send_command env2 command kwargs s.
Proof.
  unfold BaseSSH.send_command. apply bind_ext; [reflexivity |].
  intros [[|]|] s'; [| | reflexivity].
  - unfold BaseSSH.send_command_pmiko. destruct kwargs; [reflexivity |].
    apply try_except_ext. apply bind_ext; [reflexivity |]. intros t s1.
    destruct (ssh_channell t); [| reflexivity].
    apply bind_ext; [reflexivity |]. intros n s2.
    apply bind_ext; [reflexivity |]. intros _ s3.
    apply bind_ext; [apply read_ext | reflexivity].
  - unfold BaseSSH.send_command_nmiko. apply try_except_ext.
    apply bind_ext; [| reflexivity].
    destruct kwargs as [[expect_string prompt]|]; [| apply transmit_ext].
    destruct (truthy (VStr expect_string) && truthy (VStr prompt)); [| apply transmit_ext].
    apply bind_ext; [reflexivity |]. intros _ s1.
    unfold BaseSSH.send_command_nmiko_with_prompt.
    apply bind_ext; [reflexivity |]. intros _ s2.
    apply bind_ext; [apply transmit_ext |]. intros o1 s3.
    apply bind_ext; [reflexivity |]. intros _ s4.
    apply bind_ext; [apply transmit_ext | reflexivity].
Qed.

(** Without the conversion to a date, the clock is not read at all. *)
Lemma request_common_info_raw_ext s :
  HuaweiSSH.request_common_info env1 false s = HuaweiSSH.request_common_info env2 false s.
Proof.
  unfold HuaweiSSH.request_common_info.
  apply bind_ext; [reflexivity |]. intros _ s1.
  apply bind_ext; [apply send_command_ext |]. intros output s2.
  do 5 (apply bind_ext; [reflexivity |]; intros ? ?).
  do 4 (apply bind_ext; [reflexivity |]; intros ? ?).
  apply bind_ext; [apply send_command_ext |]. intros output_patch s3.
  do 3 (apply bind_ext; [reflexivity |]; intros ? ?).
  apply bind_ext; [apply send_command_ext |]. intros output_cur s4.
  reflexivity.
Qed.

Hypothesis same_minute : forall n, (clock env1 n / 60 = clock env2 n / 60)%Z.

Lemma convert_uptime_ext uptime_period s :
  HuaweiSSH.convert_uptime_to_since_date env1 uptime_period s
  = HuaweiSSH.convert_uptime_to_since_date env2 uptime_period s.
Proof.
  unfold HuaweiSSH.convert_uptime_to_since_date.
  destruct uptime_period as [|up|]; try reflexivity.
  destruct (negb (HuaweiSSH.uptime_days up =? 0)%Z
            || negb (HuaweiSSH.uptime_minutes up =? 0)%Z); [| reflexivity].
  unfold bind, get, modify, lift, ret.
  pose proof (minus_timedelta_same_minute
                (clock env1 (ticks s)) (clock env2 (ticks s))
                (HuaweiSSH.uptime_days up) (HuaweiSSH.uptime_minutes up)
                (same_minute (ticks s))) as H.
  destruct (Datetime.minus_timedelta (clock env1 (ticks s)) _ _) as [t1|e1],
           (Datetime.minus_timedelta (clock env2 (ticks s)) _ _) as [t2|e2];
    try contradiction.
  - by rewrite (format_minutes_same_minute t1 t2 H).
  - by subst.
Qed.

Lemma request_common_info_since_ext s :
  HuaweiSSH.request_common_info env1 true s = HuaweiSSH.request_common_info env2 true s.
Proof.
  unfold HuaweiSSH.request_common_info.
  apply bind_ext; [reflexivity |]. intros _ s1.
  apply bind_ext; [apply send_command_ext |]. intros output s2.
  do 4 (apply bind_ext; [reflexivity |]; intros ? ?).
  apply bind_ext.
  { apply bind_ext; [reflexivity |]. intros up s3.
    apply bind_ext; [apply convert_uptime_ext | reflexivity]. }
  intros ? ?.
  do 4 (apply bind_ext; [reflexivity |]; intros ? ?).
  apply bind_ext; [apply send_command_ext |]. intros output_patch s3.
  do 3 (apply bind_ext; [reflexivity |]; intros ? ?).
  apply bind_ext; [apply send_command_ext |]. intros output_cur s4.
  reflexivity.
Qed.
End Two_runs.

(** C7, as amended. Two runs of [request_common_info] on a device that
    returns the same texts give the same result (fields, exception and
    session) when the uptime is kept as captured; with the conversion of the
    uptime to a date of last reboot they do so when the two runs read the
    clock within the same minute. *)
Theorem C7_extraction_function_of_text_and_clock (env1 env2 : Env) (s : session) :
  (forall n command, transport_respond env1 n command = transport_respond env2 n command) ->
  HuaweiSSH.request_common_info env1 false s = HuaweiSSH.request_common_info env2 false s
  /\ ((forall n, (clock env1 n / 60 = clock env2 n / 60)%Z) ->
      HuaweiSSH.request_common_info env1 true s = HuaweiSSH.request_common_info env2 true s).
Proof.
  intros Htext. split.
  - by apply request_common_info_raw_ext.
  - intros Hclock. by apply request_common_info_since_ext.
Qed.

Lemma C7_extraction_witness :
  (forall n command,
      transport_respond (Examples.env_S Examples.t_2020_04_01) n command
      = transport_respond (Examples.env_S (Examples.t_2020_04_01 + 30)) n command)
  /\ HuaweiSSH.request_common_info (Examples.env_S Examples.t_2020_04_01) true
       Examples.connected
     = HuaweiSSH.request_common_info (Examples.env_S (Examples.t_2020_04_01 + 30)) true
         Examples.connected.
Proof.
  split; [reflexivity |].
  apply (C7_extraction_function_of_text_and_clock
           (Examples.env_S Examples.t_2020_04_01)
           (Examples.env_S (Examples.t_2020_04_01 + 30)) Examples.connected).
  - reflexivity.
  - intros n. reflexivity.
Defined.

(** The claim as stated fails: the same texts, read on two different days,
    give two different [uptime] fields. *)
Lemma C7_counterexample :
  (forall n command,
      transport_respond (Examples.env_S Examples.t_2020_04_01) n command
      = transport_respond (Examples.env_S Examples.t_2020_04_02) n command)
  /\ uptime_field (HuaweiSSH.request_common_info (Examples.env_S Examples.t_2020_04_01)
                     true Examples.connected)
     = Some (VStr "2020-01-10 (Fri) 03:13")
  /\ uptime_field (HuaweiSSH.request_common_info (Examples.env_S Examples.t_2020_04_02)
                     true Examples.connected)
     = Some (VStr "2020-01-11 (Sat) 03:13")
  /\ HuaweiSSH.request_common_info (Examples.env_S Examples.t_2020_04_01) true
       Examples.connected
     <> HuaweiSSH.request_common_info (Examples.env_S Examples.t_2020_04_02) true
          Examples.connected.
Proof.
  assert (uptime_field (HuaweiSSH.request_common_info
                          (Examples.env_S Examples.t_2020_04_01) true Examples.connected)
          = Some (VStr "2020-01-10 (Fri) 03:13")) as E1 by (vm_compute; reflexivity).
  assert (uptime_field (HuaweiSSH.request_common_info
                          (Examples.env_S Examples.t_2020_04_02) true Examples.connected)
          = Some (VStr "2020-01-11 (Sat) 03:13")) as E2 by (vm_compute; reflexivity).
  split; [reflexivity |]. split; [exact E1 |]. split; [exact E2 |].
  intros H. rewrite H in E1. rewrite E1 in E2. discriminate E2.
Qed.

(** ** C3: a host whose connection fails *)

Lemma commands_sent_app t1 t2 :
  commands_sent (t1 ++ t2) = commands_sent t1 ++ commands_sent t2.
Proof.
  induction t1 as [|e t1 IH]; simpl; [reflexivity |].
  destruct e; simpl; by rewrite IH.
Qed.







(** ** C2: an exception inside a check *)



Section Quiet.
Context {A B : Type}.




End Quiet.









(** ** C5: what the check list gates *)

(** C5, as amended. [BaseCollector.run_for_device] with an empty list of
    commands opens no session and does nothing at all; in
    [HuaweiCollector], when the check 'common' is not enabled,
    [request_common_info] sends no command and contributes no field. *)
Theorem C5_gated_by_commands_and_common
    (c : HuaweiCollector.collector) (device_type : value) (env : Env)
    (host : BaseCollector.Host) (csv : list row) (s : session) :
  default false (HuaweiCollector._check_list c !! "common") = false ->
  BaseCollector.run_for_device device_type env host [] csv
    = {| ended := Ok tt; report := csv; events := [] |}
  /\ HuaweiCollector.request_common_info c env s = (Ok ∅, s).
Proof.
  intros Hoff. split; [reflexivity |].
  unfold HuaweiCollector.request_common_info. rewrite Hoff. reflexivity.
Qed.

Lemma C5_gated_witness :
  default false
    (HuaweiCollector._check_list (Examples.collector_with Examples.no_checks) !! "common")
    = false
  /\ HuaweiCollector.request_common_info (Examples.collector_with Examples.no_checks)
       (Examples.env_S 0) Examples.connected
     = (Ok ∅, Examples.connected).
Proof.
  split; [vm_compute; reflexivity |].
  apply (C5_gated_by_commands_and_common (Examples.collector_with Examples.no_checks)
           (VStr "huawei") (Examples.env_S 0) Examples.SW1 [] Examples.connected).
  vm_compute. reflexivity.
Defined.

(** The claim as stated fails. With every check disabled, the task of a
    host still opens a session and sends commands, among them the command
    of the disabled check 'stack'. *)
Lemma C5_counterexample :
  map_Forall (fun _ enabled => enabled = false) Examples.no_checks
  /\ connection_attempted
       (events (HuaweiCollector.run_for_device
                  (Examples.collector_with Examples.no_checks)
                  (Examples.env_S 0) Examples.SW1 None []))
     = true
  /\ commands_sent
       (events (HuaweiCollector.run_for_device
                  (Examples.collector_with Examples.no_checks)
                  (Examples.env_S 0) Examples.SW1 None []))
     = [DISPLAY_STACK; DISPLAY_MAC_SUMMARY; DISPLAY_VERSION].
Proof.
  split.
  - unfold Examples.no_checks. intros k b Hk.
    apply lookup_fmap_Some in Hk as (b' & <- & _). reflexivity.
  - split; vm_compute; reflexivity.
Qed.

(** * Further properties of the code *)

(** ** Durations as text *)

(** X1. The text of a duration given as hours, minutes and seconds shows
    the same minutes and seconds and the hours modulo 24, each as a plain
    decimal number. *)
Theorem get_time_string_of_convert_to_seconds (hours minutes seconds : Z) :
  (0 <= minutes < 60)%Z ->
  (0 <= seconds < 60)%Z ->
  BaseSSH.get_time_string (BaseSSH.convert_to_seconds hours minutes seconds)
  = pretty (hours mod 24)%Z +:+ ":" +:+ pretty minutes +:+ ":" +:+ pretty seconds.
Proof.
  intros Hm Hs. unfold BaseSSH.get_time_string, BaseSSH.convert_to_seconds.
  assert ((hours * 3600 + minutes * 60 + seconds) / 3600 = hours)%Z as ->
    by (Z.div_mod_to_equations; lia).
  assert (((hours * 3600 + minutes * 60 + seconds) / 60) mod 60 = minutes)%Z as ->
    by (Z.div_mod_to_equations; lia).
  assert ((hours * 3600 + minutes * 60 + seconds) mod 60 = seconds)%Z as ->
    by (Z.div_mod_to_equations; lia).
  reflexivity.
Qed.

Lemma get_time_string_witness :
  (0 <= 1 < 60)%Z /\ (0 <= 2 < 60)%Z
  /\ BaseSSH.get_time_string (BaseSSH.convert_to_seconds 25 1 2) = "1:1:2".
Proof.
  split; [lia |]. split; [lia |].
  apply (get_time_string_of_convert_to_seconds 25 1 2); lia.
Defined.

(** ** Commands on an open Netmiko session *)

(** The state [send_command] leaves behind on a Netmiko session. *)
Lemma send_command_netmiko_state env s command :
  netmiko_ready s ->
  BaseSSH.send_command env command None s
  = (Ok (reply_text (transport_respond env (sent s) command)),
     with_trace
       (trace s ++ EvSend command ::
          match transport_respond env (sent s) command with
          | Ok _ => [EvLog INFO "Executing command"; EvLog WARNING "Executing command"]
          | Raise _ => [EvLog ERROR "Exception while trying to execute command"]
          end)
       (with_counters (S (sent s)) (ticks s) s)).
Proof.
  intros [Hlog Hlib].
  unfold BaseSSH.send_command, BaseSSH.ssh_lib_type, BaseSSH.send_command_nmiko,
    BaseSSH.transmit, BaseSSH.write, BaseSSH.read, BaseSSH.log_command, parent_log,
    log, emit, modify, lift, try_except, bind, get, ret, raise.
  cbn [fst snd]. rewrite Hlib.
  destruct (transport_respond env (sent s) command) as [output|e];
    repeat first [rewrite Hlog | progress cbn [_logger with_trace with_counters reply_text]];
    unfold with_trace, with_counters;
    cbn [ip_address _hostname _logger _ssh_lib_type ssh_channell _os_version _hardware
         _uptime _patch_version sent ticks trace];
    rewrite <- ?app_assoc; reflexivity.
Qed.

(** X2. On an open Netmiko session [send_command] never raises: it
    writes the command once, returns the reply of the device, or the empty
    string when the transport failed, and leaves the session open. *)
Theorem send_command_netmiko_absorbs_failures
    (env : Env) (s : session) (command : string) :
  netmiko_ready s ->
  exists s',
    BaseSSH.send_command env command None s
    = (Ok (reply_text (transport_respond env (sent s) command)), s')
    /\ netmiko_ready s'
    /\ sent s' = S (sent s)
    /\ commands_sent (trace s') = commands_sent (trace s) ++ [command].
Proof.
  intros Hready. eexists. split; [apply (send_command_netmiko_state _ _ _ Hready) |].
  destruct Hready as [Hlog Hlib]. split; [split; assumption |]. split; [reflexivity |].
  cbn [trace with_trace]. rewrite commands_sent_app. cbn [commands_sent].
  destruct (transport_respond env (sent s) command); reflexivity.
Qed.

Lemma send_command_netmiko_witness :
  netmiko_ready Examples.connected
  /\ (BaseSSH.send_command (Examples.env_S 0) DISPLAY_PATCH None Examples.connected).1
     = Ok "Info: No patch exists.".
Proof.
  assert (netmiko_ready Examples.connected) as Hready by (split; reflexivity).
  split; [exact Hready |].
  destruct (send_command_netmiko_absorbs_failures (Examples.env_S 0) Examples.connected
              DISPLAY_PATCH Hready) as (s' & H & _).
  rewrite H. reflexivity.
Defined.

(** ** The raw-command collector *)






(** ** The report of the Huawei collector *)

(** [request_all_for_device] never returns: the call of the missing method
    [request_memory_usage] is reached whenever nothing raised before it. *)
Lemma request_all_for_device_never_returns c env s properties s' :
  HuaweiCollector.request_all_for_device c env s <> (Ok properties, s').
Proof.
  intros H. unfold HuaweiCollector.request_all_for_device in H.
  apply bind_inv_ok in H as (common & s1 & _ & H).
  apply bind_inv_ok in H as (stack & s2 & _ & H).
  apply bind_inv_ok in H as (mac & s3 & _ & H).
  apply bind_inv_ok in H as (routes & s4 & _ & H).
  apply bind_inv_ok in H as (users & s5 & _ & H).
  cbv zeta in H.
  apply bind_inv_ok in H as (esn & s6 & _ & H).
  apply bind_inv_ok in H as (boards & s7 & _ & H).
  apply bind_inv_ok in H as (lines & s8 & _ & H).
  apply bind_inv_ok in H as (vrf & s9 & _ & H).
  apply bind_inv_ok in H as (usage & s10 & Husage & _).
  discriminate Husage.
Qed.

(** The task of a host leaves the report as it was and never ends
    normally. *)
Lemma run_for_device_without_row c env host passed csv :
  report (HuaweiCollector.run_for_device c env host passed csv) = csv
  /\ ended (HuaweiCollector.run_for_device c env host passed csv) <> Ok tt.
Proof.
  unfold HuaweiCollector.run_for_device.
  match goal with
  | |- context [let '(r, s) := ?body ?host in _] => destruct (body host) as [r s] eqn:E
  end.
  destruct r as [[results|]|e]; cbn [report ended]; [exfalso | split; [reflexivity | discriminate] ..].
  apply bind_inv_ok in E as ([] & s0 & _ & E).
  apply bind_inv_ok in E as (lib & s1 & _ & E).
  apply bind_inv_ok in E as (found & s2 & Hfound & E).
  apply bind_inv_ok in E as ([] & s3 & _ & E).
  injection E as -> _.
  destruct lib as [lib|]; [| discriminate Hfound].
  unfold try_except in Hfound.
  match type of Hfound with
  | context [bind ?m ?k s1] => destruct (bind m k s1) as [[a|e] t] eqn:Hm
  end.
  - apply bind_inv_ok in Hm as (properties & t' & Hall & _).
    exact (request_all_for_device_never_returns _ _ _ _ _ Hall).
  - discriminate Hfound.
Qed.

(** X4. [HuaweiCollector.run_for_device] never appends a row to the
    report, whatever the host, the device and the check list: collection
    always ends in the call of [request_memory_usage], which [HuaweiSSH]
    does not define. *)
Theorem HuaweiCollector_run_for_device_never_writes_a_row
    (c : HuaweiCollector.collector) (env : Env) (host : BaseCollector.Host)
    (passed : option (list string)) (csv : list row) :
  report (HuaweiCollector.run_for_device c env host passed csv) = csv
  /\ ended (HuaweiCollector.run_for_device c env host passed csv) <> Ok tt.
Proof. apply run_for_device_without_row. Qed.

Lemma run_keeps_report function network hosts args csv :
  (forall env host passed csv', report (function env host passed csv') = csv') ->
  (BaseCollector.run function network hosts args csv).1 = csv.
Proof.
  intros Hf. revert csv. induction hosts as [|host rest IH]; intros csv; [reflexivity |].
  cbn [BaseCollector.run]. rewrite Hf.
  specialize (IH csv).
  destruct (BaseCollector.run function network rest args csv) as [csv' evs].
  exact IH.
Qed.

(** X5. Whatever the host list and the devices, the report that
    [HuaweiCollector.run_for_files] produces consists of the header row
    alone. *)
Theorem HuaweiCollector_report_is_the_header_alone
    (c : HuaweiCollector.collector) (network : BaseCollector.Host -> Env)
    (lines : list string) (regex : regex) (comment_sign : string)
    (commands : list string) (rows : list row) (evs : list (list event)) :
  HuaweiCollector.run_for_files c network lines regex comment_sign commands
    = Ok (rows, evs) ->
  rows = [map VStr HuaweiCollector.get_report_header].
Proof.
  unfold HuaweiCollector.run_for_files.
  remember [map VStr HuaweiCollector.get_report_header] as header eqn:Hheader.
  destruct (BaseCollector.hosts_from_lines lines regex comment_sign) as [hosts|e];
    [| intros H; discriminate H].
  intros H. injection H as H.
  pose proof (run_keeps_report (HuaweiCollector.run_for_device c) network hosts commands
                header
                (fun env host passed csv' =>
                   proj1 (run_for_device_without_row c env host passed csv'))) as Hrun.
  rewrite H in Hrun. exact Hrun.
Qed.

Lemma HuaweiCollector_report_witness :
  exists rows evs,
    HuaweiCollector.run_for_files
      (Examples.collector_with HuaweiCollector.default_check_list)
      (fun _ => Examples.env_S Examples.t_2020_04_01)
      ["SW1, 10.0.0.1"; "SW2, 10.0.0.2"] DEVICES_LST_LINE_REGEX "#" []
    = Ok (rows, evs)
    /\ rows = [map VStr HuaweiCollector.get_report_header].
Proof.
  destruct (HuaweiCollector.run_for_files
              (Examples.collector_with HuaweiCollector.default_check_list)
              (fun _ => Examples.env_S Examples.t_2020_04_01)
              ["SW1, 10.0.0.1"; "SW2, 10.0.0.2"] DEVICES_LST_LINE_REGEX "#" [])
    as [[rows evs]|e] eqn:E.
  - exists rows, evs. split; [reflexivity |].
    exact (HuaweiCollector_report_is_the_header_alone _ _ _ _ _ _ _ _ E).
  - exfalso. vm_compute in E. discriminate E.
Defined.

(** ** A host with a malformed address *)

(** X6. For a host whose address [ipaddress] refuses (the pattern of the
    host list accepts any four groups of digits), the task ends with
    [AttributeError] before any connection attempt: the constructor left
    the session without a logger. No row is written. *)
Theorem HuaweiCollector_malformed_address
    (c : HuaweiCollector.collector) (env : Env) (host : BaseCollector.Host)
    (passed : option (list string)) (csv : list row) (e : exn) :
  IPv4Address (BaseCollector.mgmt_ip host) = Raise e ->
  truthy (HuaweiCollector.default_device_type c) = true ->
  HuaweiCollector.run_for_device c env host passed csv
  = {| ended := Raise AttributeError;
       report := csv;
       events := [EvLog DEBUG "Creating HuaweiSSH"; EvLog ERROR "wrong IP address"] |}.
Proof.
  intros Hip Hdt. unfold HuaweiCollector.run_for_device.
  set (host0 := BaseSSH.init (BaseCollector.mgmt_ip host) (BaseCollector.hostname host)).
  assert (BaseSSH.connect_ssh env (HuaweiCollector.default_device_type c) host0
          = (Raise AttributeError, host0)) as Hc.
  { unfold BaseSSH.connect_ssh. rewrite Hdt.
    unfold host0, BaseSSH.init. rewrite Hip. reflexivity. }
  rewrite (bind_raise _ _ _ _ _ Hc).
  unfold host0, BaseSSH.init. rewrite Hip. reflexivity.
Qed.

Lemma HuaweiCollector_malformed_address_witness :
  BaseCollector.get_host_from_line "SW9, 999.0.0.1" DEVICES_LST_LINE_REGEX "#"
    = Ok (Some {| BaseCollector.hostname := VStr "SW9";
                  BaseCollector.mgmt_ip := VStr "999.0.0.1" |})
  /\ IPv4Address (VStr "999.0.0.1") = Raise AddressValueError
  /\ ended (HuaweiCollector.run_for_device
              (Examples.collector_with HuaweiCollector.default_check_list)
              (Examples.env_S 0)
              {| BaseCollector.hostname := VStr "SW9";
                 BaseCollector.mgmt_ip := VStr "999.0.0.1" |} None [])
     = Raise AttributeError.
Proof.
  split; [vm_compute; reflexivity |]. split; [vm_compute; reflexivity |].
  rewrite (HuaweiCollector_malformed_address
             (Examples.collector_with HuaweiCollector.default_check_list)
             (Examples.env_S 0)
             {| BaseCollector.hostname := VStr "SW9";
                BaseCollector.mgmt_ip := VStr "999.0.0.1" |} None []
             AddressValueError); reflexivity.
Defined.

(** ** The host list *)

Lemma get_host_from_line_default_total line comment_sign :
  exists host,
    BaseCollector.get_host_from_line line DEVICES_LST_LINE_REGEX comment_sign = Ok host.
Proof.
  unfold BaseCollector.get_host_from_line.
  destruct (startswith "#" line); [eauto |].
  destruct (search false DEVICES_LST_LINE_REGEX line) as [m|]; [| eauto].
  unfold group.
  change (group_names DEVICES_LST_LINE_REGEX) with ["hostname"; "ipv4_address"].
  cbn [existsb String.eqb Ascii.eqb Bool.eqb orb].
  destruct (assoc "hostname" (m_caps m)), (assoc "ipv4_address" (m_caps m)); eauto.
Qed.

Lemma hosts_from_lines_app lines1 lines2 regex comment_sign :
  BaseCollector.hosts_from_lines (lines1 ++ lines2) regex comment_sign
  = match BaseCollector.hosts_from_lines lines1 regex comment_sign with
    | Raise e => Raise e
    | Ok hosts1 =>
        match BaseCollector.hosts_from_lines lines2 regex comment_sign with
        | Raise e => Raise e
        | Ok hosts2 => Ok (hosts1 ++ hosts2)
        end
    end.
Proof.
  induction lines1 as [|line rest IH]; cbn [app BaseCollector.hosts_from_lines].
  - destruct (BaseCollector.hosts_from_lines lines2 regex comment_sign); reflexivity.
  - destruct (BaseCollector.get_host_from_line line regex comment_sign) as [host|e];
      [| reflexivity].
    rewrite IH.
    destruct (BaseCollector.hosts_from_lines rest regex comment_sign) as [hosts1|e];
      [| reflexivity].
    destruct (BaseCollector.hosts_from_lines lines2 regex comment_sign) as [hosts2|e];
      [| reflexivity].
    destruct host; reflexivity.
Qed.

(** X7. With the pattern [DEVICES_LST_LINE_REGEX] reading a host list
    never raises, yields at most one host per line, and the hosts of two
    lists read one after the other are the hosts of the first followed by
    the hosts of the second. *)
Theorem hosts_from_lines_default_pattern
    (lines1 lines2 : list string) (comment_sign : string) :
  exists hosts1 hosts2,
    BaseCollector.hosts_from_lines lines1 DEVICES_LST_LINE_REGEX comment_sign = Ok hosts1
    /\ BaseCollector.hosts_from_lines lines2 DEVICES_LST_LINE_REGEX comment_sign = Ok hosts2
    /\ BaseCollector.hosts_from_lines (lines1 ++ lines2) DEVICES_LST_LINE_REGEX comment_sign
       = Ok (hosts1 ++ hosts2)
    /\ (length hosts1 <= length lines1)%nat.
Proof.
  assert (forall lines,
             exists hosts,
               BaseCollector.hosts_from_lines lines DEVICES_LST_LINE_REGEX comment_sign
               = Ok hosts /\ (length hosts <= length lines)%nat) as Htotal.
  { induction lines as [|line rest (hosts & IH & Hlen)].
    - exists []. split; [reflexivity | cbn [length]; lia].
    - destruct (get_host_from_line_default_total line comment_sign) as (host & Hhost).
      cbn [BaseCollector.hosts_from_lines]. rewrite Hhost, IH.
      destruct host; eexists; (split; [reflexivity | cbn [length]; lia]). }
  destruct (Htotal lines1) as (hosts1 & H1 & Hlen1).
  destruct (Htotal lines2) as (hosts2 & H2 & _).
  exists hosts1, hosts2. split; [exact H1 |]. split; [exact H2 |].
  split; [| exact Hlen1].
  rewrite hosts_from_lines_app, H1, H2. reflexivity.
Qed.

(** ** Fields and columns *)

Lemma report_row_insert_at (keys : list string) (host_info : dict) key v (i : nat) :
  NoDup keys ->
  keys !! i = Some key ->
  map (fun k => default (VStr "Error") (<[key := v]> host_info !! k)) keys
  = <[i := v]> (map (fun k => default (VStr "Error") (host_info !! k)) keys).
Proof.
  revert i. induction keys as [|k rest IH]; intros i Hnd Hi; [destruct i; discriminate Hi |].
  apply NoDup_cons in Hnd as [Hk Hnd].
  destruct i as [|i]; cbn [map].
  - injection Hi as ->. rewrite lookup_insert_eq. cbn [default]. cbn. f_equal.
    clear IH. induction rest as [|k' rest IH']; [reflexivity |].
    apply not_elem_of_cons in Hk as [Hne Hk]. apply NoDup_cons in Hnd as [_ Hnd].
    cbn [map]. rewrite lookup_insert_ne by congruence. f_equal. exact (IH' Hk Hnd).
  - cbn in Hi. assert (key <> k) as Hne.
    { intros ->. apply Hk. apply list_elem_of_lookup. eauto. }
    rewrite lookup_insert_ne by congruence. cbn. f_equal. exact (IH i Hnd Hi).
Qed.

(** X8. Setting the field of the [i]-th column in the dictionary of a
    host changes the [i]-th cell of its row to the new value and no other
    cell. *)
Theorem get_report_row_insert (host_info : dict) (key : string) (v : value) (i : nat) :
  map fst HuaweiCollector.COLUMNS_HEADER !! i = Some key ->
  HuaweiCollector.get_report_row (<[key := v]> host_info)
  = <[i := v]> (HuaweiCollector.get_report_row host_info).
Proof.
  intros Hi. unfold HuaweiCollector.get_report_row.
  apply report_row_insert_at; [apply COLUMNS_HEADER_keys_distinct | exact Hi].
Qed.

Lemma get_report_row_insert_witness :
  map fst HuaweiCollector.COLUMNS_HEADER !! 4%nat = Some "mgmt_ip"
  /\ HuaweiCollector.get_report_row (<["mgmt_ip" := VStr "10.0.0.1"]> ∅) !! 4%nat
     = Some (VStr "10.0.0.1").
Proof.
  split; [reflexivity |].
  rewrite (get_report_row_insert ∅ "mgmt_ip" (VStr "10.0.0.1") 4 eq_refl).
  reflexivity.
Defined.

(** ** The life cycle of a session *)

(** X9. Closing an open Netmiko session whose transport closes cleanly
    puts the session back into the state without a connection: a command
    sent afterwards returns the empty string and nothing more is written to
    the device. *)
Theorem netmiko_disconnect_then_send
    (env : Env) (s : session) (command : string) (kwargs : option (string * string)) :
  netmiko_ready s ->
  transport_disconnect env = true ->
  exists s1 s2,
    BaseSSH.disconnect_ssh env s = (Ok tt, s1)
    /\ _ssh_lib_type s1 = None
    /\ BaseSSH.send_command env command kwargs s1 = (Ok "", s2)
    /\ commands_sent (trace s2) = commands_sent (trace s).
Proof.
  intros [Hlog Hlib] Hclose.
  unfold BaseSSH.disconnect_ssh, BaseSSH._disconnect_ssh_nmiko,
    BaseSSH.log_connection_status_change, BaseSSH.send_command, BaseSSH.ssh_lib_type,
    try_except, log, emit, modify, bind, get, ret, raise.
  cbn [fst snd]. rewrite Hlib, Hclose.
  repeat first [rewrite Hlog | progress cbn [_logger with_trace with_ssh_lib_type]].
  eexists _, _. split; [reflexivity |]. split; [reflexivity |].
  cbn [_ssh_lib_type _logger with_trace with_ssh_lib_type]. rewrite Hlog.
  split; [reflexivity |].
  cbn [trace with_trace with_ssh_lib_type].
  rewrite !commands_sent_app. cbn [commands_sent]. rewrite !app_nil_r. reflexivity.
Qed.

Lemma netmiko_disconnect_then_send_witness :
  netmiko_ready Examples.connected
  /\ (BaseSSH.send_command (Examples.env_S 0) DISPLAY_VERSION None
        (after (BaseSSH.disconnect_ssh (Examples.env_S 0)) Examples.connected)).1
     = Ok "".
Proof.
  assert (netmiko_ready Examples.connected) as Hready by (split; reflexivity).
  split; [exact Hready |].
  destruct (netmiko_disconnect_then_send (Examples.env_S 0) Examples.connected
              DISPLAY_VERSION None Hready eq_refl) as (s1 & s2 & Hd & _ & Hs & _).
  unfold after. rewrite Hd. cbn [snd]. rewrite Hs. reflexivity.
Defined.

(** X10. [disconnect_ssh] never closes a Paramiko session: the attribute
    it closes is never assigned, so the call only logs a warning and the
    session keeps its library type. *)
Theorem paramiko_disconnect_closes_nothing (env : Env) (s : session) :
  _ssh_lib_type s = Some SSH_LIB_PARAMIKO ->
  _logger s = true ->
  BaseSSH.disconnect_ssh env s
  = (Ok tt,
     with_trace
       (trace s ++ [EvLog WARNING "Tried to close Paramiko connection, but handled Exception"])
       s)
  /\ _ssh_lib_type (after (BaseSSH.disconnect_ssh env) s) = Some SSH_LIB_PARAMIKO.
Proof.
  intros Hlib Hlog.
  assert (BaseSSH.disconnect_ssh env s
          = (Ok tt,
             with_trace
               (trace s ++
                  [EvLog WARNING "Tried to close Paramiko connection, but handled Exception"])
               s)) as H.
  { unfold BaseSSH.disconnect_ssh, BaseSSH._disconnect_ssh_pmiko, try_except, log, emit,
      modify, bind, get, ret, raise.
    cbn [fst snd]. rewrite Hlib. cbn [fst snd]. rewrite Hlog. reflexivity. }
  split; [exact H |]. unfold after. rewrite H. exact Hlib.
Qed.

(** A session opened with Paramiko. *)
Lemma paramiko_disconnect_witness :
  _ssh_lib_type (after (BaseSSH.connect_ssh (Examples.env_S 0) VNone) Examples.fresh)
    = Some SSH_LIB_PARAMIKO
  /\ commands_sent
       (trace (after (BaseSSH.disconnect_ssh (Examples.env_S 0))
                 (after (BaseSSH.connect_ssh (Examples.env_S 0) VNone) Examples.fresh)))
     = []
  /\ _ssh_lib_type
       (after (BaseSSH.disconnect_ssh (Examples.env_S 0))
          (after (BaseSSH.connect_ssh (Examples.env_S 0) VNone) Examples.fresh))
     = Some SSH_LIB_PARAMIKO.
Proof.
  split; [reflexivity |]. split; [reflexivity |].
  apply (paramiko_disconnect_closes_nothing (Examples.env_S 0)
           (after (BaseSSH.connect_ssh (Examples.env_S 0) VNone) Examples.fresh));
    reflexivity.
Defined.

(** ** Verbosity *)


(** X11. For the verbosity counts 0 to 3, [set_logging_levels] makes the
    log file at least as verbose as the console, and a higher count never
    makes the console, the log file or the host logs less verbose; any
    other count leaves the three levels as they were. *)
Theorem set_logging_levels_by_count (count : Z) (settings : BaseCollector.log_levels) :
  ((0 <= count <= 3)%Z ->
   at_least_as_verbose
     (BaseCollector.log_file_level (BaseCollector.set_logging_levels count settings))
     (BaseCollector.log_console_level (BaseCollector.set_logging_levels count settings)))
  /\ ((0 <= count < 3)%Z ->
      at_least_as_verbose
        (BaseCollector.log_console_level
           (BaseCollector.set_logging_levels (count + 1) settings))
        (BaseCollector.log_console_level (BaseCollector.set_logging_levels count settings))
      /\ at_least_as_verbose
           (BaseCollector.log_file_level
              (BaseCollector.set_logging_levels (count + 1) settings))
           (BaseCollector.log_file_level (BaseCollector.set_logging_levels count settings))
      /\ at_least_as_verbose
           (BaseCollector.host_log_file_level
              (BaseCollector.set_logging_levels (count + 1) settings))
           (BaseCollector.host_log_file_level
              (BaseCollector.set_logging_levels count settings)))
  /\ ((count < 0 \/ 3 < count)%Z ->
      BaseCollector.set_logging_levels count settings = settings).
Proof.
  split; [| split].
  - intros H. assert (count = 0 \/ count = 1 \/ count = 2 \/ count = 3)%Z
      as [-> | [-> | [-> | ->]]] by lia; cbv; intros E; discriminate E.
  - intros H. assert (count = 0 \/ count = 1 \/ count = 2)%Z
      as [-> | [-> | ->]] by lia; cbv; repeat split; intros E; discriminate E.
  - intros H. unfold BaseCollector.set_logging_levels.
    destruct (Z.eqb_spec count 0); [lia |].
    destruct (Z.eqb_spec count 1); [lia |].
    destruct (Z.eqb_spec count 2); [lia |].
    destruct (Z.eqb_spec count 3); [lia |].
    reflexivity.
Qed.

(** ** Handlers *)

Lemma try_except_ok {A} (m : M A) (h : exn -> M A) s a s' :
  m s = (Ok a, s') -> try_except m h s = (Ok a, s').
Proof. intros H. unfold try_except. rewrite H. reflexivity. Qed.

Lemma try_except_raise {A} (m : M A) (h : exn -> M A) s e s' :
  m s = (Raise e, s') -> try_except m h s = h e s'.
Proof. intros H. unfold try_except. rewrite H. reflexivity. Qed.

Lemma catch_ok {A} e0 (m h : M A) s a s' :
  m s = (Ok a, s') -> catch e0 m h s = (Ok a, s').
Proof. intros H. unfold catch. apply try_except_ok. exact H. Qed.

Lemma catch_caught {A} e0 (m h : M A) s s' :
  m s = (Raise e0, s') -> catch e0 m h s = h s'.
Proof.
  intros H. unfold catch. rewrite (try_except_raise _ _ _ _ _ H).
  destruct (decide (e0 = e0)) as [_|Hne]; [reflexivity | contradiction].
Qed.

(** A group the pattern defines can be read from any of its matches. *)
Lemma group_defined regex m name :
  existsb (String.eqb name) (group_names regex) = true ->
  exists v, group regex m name = Ok v.
Proof.
  intros H. unfold group. rewrite H.
  destruct (assoc name (m_caps m)); eauto.
Qed.

(** ** The routes table *)

Lemma return_regex_search_result_logged output regex s :
  _logger s = true ->
  exists s',
    HuaweiSSH._return_regex_search_result output regex "routes_number" s
    = (Ok (route_value output regex), s')
    /\ _logger s' = true.
Proof.
  intros Hlog. unfold HuaweiSSH._return_regex_search_result, route_value, group_of.
  destruct (search false regex output) as [m|].
  - destruct (group regex m "routes_number") as [v|e] eqn:Hg.
    + eexists. split.
      * apply try_except_ok. unfold lift. rewrite (bind_ok _ _ _ v s); [| reflexivity].
        unfold HuaweiSSH.log_match_found. rewrite (bind_ok _ _ _ _ _ (log_ok _ _ _ Hlog)).
        reflexivity.
      * exact Hlog.
    + assert (e = IndexError) as ->.
      { unfold group in Hg.
        destruct (existsb (String.eqb "routes_number") (group_names regex));
          [destruct (assoc "routes_number" (m_caps m)); discriminate Hg |].
        injection Hg as <-. reflexivity. }
      eexists. split.
      * unfold lift. rewrite (try_except_raise _ _ _ IndexError s);
          [| rewrite (bind_raise _ _ _ IndexError s); reflexivity].
        unfold HuaweiSSH.log_match_error. rewrite (bind_ok _ _ _ _ _ (log_ok _ _ _ Hlog)).
        reflexivity.
      * exact Hlog.
  - eexists. split.
    + rewrite (try_except_raise _ _ _ AttributeError s); [| reflexivity].
      unfold HuaweiSSH.log_match_found. rewrite (bind_ok _ _ _ _ _ (log_ok _ _ _ Hlog)).
      reflexivity.
    + exact Hlog.
Qed.

Lemma routes_loop_logged output regexes (acc : dict) s :
  _logger s = true ->
  exists s',
    HuaweiSSH.routes_loop output regexes acc s
    = (Ok (fold_left (fun d kr => <[kr.1 := route_value output kr.2]> d) regexes acc), s')
    /\ _logger s' = true.
Proof.
  revert acc s. induction regexes as [|[key regex] rest IH]; intros acc s Hlog.
  - exists s. split; [reflexivity | exact Hlog].
  - destruct (return_regex_search_result_logged output regex s Hlog) as (s1 & H1 & Hlog1).
    destruct (IH (<[key := route_value output regex]> acc) s1 Hlog1) as (s2 & H2 & Hlog2).
    exists s2. split; [| exact Hlog2].
    cbn [HuaweiSSH.routes_loop fold_left]. rewrite (bind_ok _ _ _ _ _ H1). exact H2.
Qed.

(** X12. On an open Netmiko session [request_all_vrf_routes_number]
    never raises, and its result has, for each protocol of
    [REGEX_ROUTES_SUMMARY], the number captured from the reply of the
    device, or the integer 0 when the line of the protocol is missing (also
    when the command failed in the transport). *)
Theorem request_all_vrf_routes_number_fields (env : Env) (s : session) :
  netmiko_ready s ->
  exists total_routes s',
    HuaweiSSH.request_all_vrf_routes_number env s = (Ok total_routes, s')
    /\ forall key regex,
        In (key, regex) REGEX_ROUTES_SUMMARY ->
        total_routes !! key
        = Some (route_value
                  (reply_text (transport_respond env (sent s) DISPLAY_ROUTES_SUMMARY))
                  regex).
Proof.
  intros [Hlog Hlib].
  set (output := reply_text (transport_respond env (sent s) DISPLAY_ROUTES_SUMMARY)).
  unfold HuaweiSSH.request_all_vrf_routes_number, HuaweiSSH.log_info_requesting,
    HuaweiSSH.log_info_requested.
  rewrite (bind_ok _ _ _ _ _ (log_ok _ _ _ Hlog)).
  set (s0 := with_trace _ s).
  assert (netmiko_ready s0) as Hready0 by (split; [exact Hlog | exact Hlib]).
  rewrite (bind_ok _ _ _ _ _ (send_command_netmiko_state env s0 DISPLAY_ROUTES_SUMMARY Hready0)).
  change (sent s0) with (sent s). fold output.
  set (s1 := with_trace _ (with_counters _ _ s0)).
  assert (_logger s1 = true) as Hlog1 by exact Hlog.
  destruct (routes_loop_logged output REGEX_ROUTES_SUMMARY ∅ s1 Hlog1) as (s2 & Hloop & Hlog2).
  rewrite (bind_ok _ _ _ _ _ Hloop).
  rewrite (bind_ok _ _ _ _ _ (log_ok _ _ _ Hlog2)).
  eexists _, _. split; [reflexivity |].
  intros key regex Hin. cbn [fold_left REGEX_ROUTES_SUMMARY fst snd].
  unfold REGEX_ROUTES_SUMMARY in Hin. cbn [In] in Hin.
  destruct Hin as [[= <- <-] | [[= <- <-] | [[= <- <-] | [[= <- <-] | [[= <- <-] | [[= <- <-] | []]]]]]];
    repeat first [rewrite lookup_insert_eq; reflexivity
                 | rewrite lookup_insert_ne by (intros E; discriminate E)].
Qed.

Lemma request_all_vrf_routes_number_witness :
  netmiko_ready Examples.connected
  /\ exists total_routes s',
      HuaweiSSH.request_all_vrf_routes_number (Examples.env_S 0) Examples.connected
      = (Ok total_routes, s')
      /\ total_routes !! "bgp" = Some (VInt 0).
Proof.
  assert (netmiko_ready Examples.connected) as Hready by (split; reflexivity).
  split; [exact Hready |].
  destruct (request_all_vrf_routes_number_fields (Examples.env_S 0) Examples.connected Hready)
    as (total_routes & s' & Hrun & Hfields).
  exists total_routes, s'. split; [exact Hrun |].
  rewrite (Hfields "bgp" (routes_line (lits "BGP"))).
  - vm_compute. reflexivity.
  - unfold REGEX_ROUTES_SUMMARY. cbn [In]. tauto.
Defined.

(** ** The common check on an unexpected reply *)

(** X13. On an open Netmiko session, when the reply to 'display version'
    does not show the software version (also when the command failed in the
    transport), [request_common_info] raises [AttributeError] right after
    that command: the handler of [_return_version] calls a method that does
    not exist. No field is returned and no further command is sent. *)
Theorem request_common_info_without_version
    (env : Env) (s : session) (flag_uptime_since : bool) :
  netmiko_ready s ->
  search true regex_version (reply_text (transport_respond env (sent s) DISPLAY_VERSION))
    = None ->
  exists s',
    HuaweiSSH.request_common_info env flag_uptime_since s = (Raise AttributeError, s')
    /\ commands_sent (trace s') = commands_sent (trace s) ++ [DISPLAY_VERSION].
Proof.
  intros [Hlog Hlib] Hnone.
  unfold HuaweiSSH.request_common_info, HuaweiSSH.log_info_requesting.
  rewrite (bind_ok _ _ _ _ _ (log_ok _ _ _ Hlog)).
  set (s0 := with_trace _ s).
  assert (netmiko_ready s0) as Hready0 by (split; [exact Hlog | exact Hlib]).
  rewrite (bind_ok _ _ _ _ _ (send_command_netmiko_state env s0 DISPLAY_VERSION Hready0)).
  change (sent s0) with (sent s).
  set (s1 := with_trace _ (with_counters _ _ s0)).
  assert (HuaweiSSH._return_version
            (reply_text (transport_respond env (sent s) DISPLAY_VERSION)) s1
          = (Raise AttributeError, s1)) as Hversion.
  { unfold HuaweiSSH._return_version. rewrite Hnone.
    rewrite (catch_caught AttributeError _ _ s1 s1); reflexivity. }
  rewrite (bind_raise _ _ _ _ _ Hversion).
  eexists. split; [reflexivity |].
  unfold s1, s0. cbn [trace with_trace with_counters].
  rewrite !commands_sent_app. cbn [commands_sent].
  destruct (transport_respond env (sent s) DISPLAY_VERSION); cbn [commands_sent];
    rewrite ?app_nil_r; reflexivity.
Qed.

Lemma request_common_info_without_version_witness :
  netmiko_ready Examples.connected
  /\ (HuaweiSSH.request_common_info Scenarios.env_unrecognized true Examples.connected).1
     = Raise AttributeError.
Proof.
  assert (netmiko_ready Examples.connected) as Hready by (split; reflexivity).
  split; [exact Hready |].
  destruct (request_common_info_without_version Scenarios.env_unrecognized
              Examples.connected true Hready) as (s' & H & _).
  - vm_compute. reflexivity.
  - rewrite H. reflexivity.
Defined.

(** ** Several commands in a row *)

Lemma append_nil_r (a : string) : a +:+ "" = a.
Proof.
  induction a as [|c a IH]; [reflexivity |].
  change (String c (a +:+ "") = String c a). f_equal. exact IH.
Qed.

Lemma append_assoc (a b c : string) : (a +:+ b) +:+ c = a +:+ (b +:+ c).
Proof.
  induction a as [|x a IH]; [reflexivity |].
  change (String x ((a +:+ b) +:+ c) = String x (a +:+ (b +:+ c))). f_equal. exact IH.
Qed.

Lemma send_commands_from_netmiko env commands output s :
  netmiko_ready s ->
  exists s',
    BaseSSH.send_commands_from env commands output s
    = (Ok (output +:+ replies env (sent s) commands), s')
    /\ netmiko_ready s'
    /\ commands_sent (trace s') = commands_sent (trace s) ++ commands.
Proof.
  revert output s. induction commands as [|command rest IH]; intros output s Hready.
  - exists s. cbn [BaseSSH.send_commands_from replies]. rewrite append_nil_r.
    split; [reflexivity |]. split; [exact Hready |]. symmetry. apply app_nil_r.
  - pose proof (send_command_netmiko_state env s command Hready) as Hsend.
    set (s1 := with_trace _ _) in Hsend.
    assert (netmiko_ready s1) as Hready1 by exact Hready.
    assert (commands_sent (trace s1) = commands_sent (trace s) ++ [command]) as Hsent1.
    { unfold s1. cbn [trace with_trace]. rewrite commands_sent_app. cbn [commands_sent].
      destruct (transport_respond env (sent s) command); reflexivity. }
    destruct (IH (output +:+ reply_text (transport_respond env (sent s) command)) s1 Hready1)
      as (s2 & Hrest & Hready2 & Hsent2).
    exists s2. split; [| split; [exact Hready2 |]].
    + cbn [BaseSSH.send_commands_from replies]. rewrite (bind_ok _ _ _ _ _ Hsend).
      rewrite Hrest. change (sent s1) with (S (sent s)). rewrite append_assoc. reflexivity.
    + rewrite Hsent2, Hsent1, <- app_assoc. reflexivity.
Qed.

(** X14. On an open Netmiko session [send_commands] never raises: it
    writes the commands in the order of the list, each once, and returns
    the replies of the device concatenated in that order, a command that
    failed in the transport contributing the empty string. *)
Theorem send_commands_concatenates_the_replies
    (env : Env) (commands : list string) (s : session) :
  netmiko_ready s ->
  exists s',
    BaseSSH.send_commands env commands s = (Ok (replies env (sent s) commands), s')
    /\ commands_sent (trace s') = commands_sent (trace s) ++ commands.
Proof.
  intros Hready. unfold BaseSSH.send_commands.
  rewrite (bind_ok _ _ _ _ _ (log_ok _ _ _ (proj1 Hready))).
  set (s0 := with_trace _ s).
  assert (netmiko_ready s0) as Hready0 by exact Hready.
  destruct (send_commands_from_netmiko env commands "" s0 Hready0) as (s' & Hrun & _ & Hsent).
  exists s'. split; [exact Hrun |].
  rewrite Hsent. unfold s0. cbn [trace with_trace].
  rewrite commands_sent_app. cbn [commands_sent]. rewrite app_nil_r. reflexivity.
Qed.

Lemma send_commands_witness :
  netmiko_ready Examples.connected
  /\ (BaseSSH.send_commands (Examples.env_S 0) [DISPLAY_PATCH; "unknown"; DISPLAY_PATCH]
        Examples.connected).1
     = Ok "Info: No patch exists.Info: No patch exists.".
Proof.
  assert (netmiko_ready Examples.connected) as Hready by (split; reflexivity).
  split; [exact Hready |].
  destruct (send_commands_concatenates_the_replies (Examples.env_S 0)
              [DISPLAY_PATCH; "unknown"; DISPLAY_PATCH] Examples.connected Hready)
    as (s' & H & _).
  rewrite H. vm_compute. reflexivity.
Defined.

(** ** Commands on a Paramiko session *)



(** ** The hardware of a device *)

Lemma return_hardware_from_logged regexes output s :
  Forall (fun r => existsb (String.eqb "hardware") (group_names r) = true) regexes ->
  _logger s = true ->
  exists hw logs,
    HuaweiSSH._return_hardware_from regexes output s
    = (Ok hw, with_trace (trace s ++ logs) s)
    /\ commands_sent logs = [].
Proof.
  intros Hnames Hlog. induction Hnames as [|r rest Hr _ IH].
  - cbn [HuaweiSSH._return_hardware_from]. unfold HuaweiSSH.log_match_error.
    rewrite (bind_ok _ _ _ _ _ (log_ok _ _ _ Hlog)).
    eexists _, [_]. split; reflexivity.
  - cbn [HuaweiSSH._return_hardware_from]. cbv zeta.
    destruct (search false r output) as [m|].
    + destruct (group_defined r m "hardware" Hr) as (v & Hg).
      assert (catch AttributeError
                (hardware <- group_of r (Some m) "hardware" ;;
                 HuaweiSSH.log_match_found "hardware" ;;
                 ret (Some hardware))
                (ret None) s
              = (Ok (Some v), with_trace (trace s ++ [EvLog DEBUG "Got hardware"]) s))
        as Hfound.
      { apply catch_ok. unfold group_of, lift.
        rewrite (bind_ok _ _ _ v s); [| cbv beta; rewrite Hg; reflexivity].
        unfold HuaweiSSH.log_match_found.
        rewrite (bind_ok _ _ _ _ _ (log_ok _ _ _ Hlog)). reflexivity. }
      rewrite (bind_ok _ _ _ _ _ Hfound).
      eexists v, [_]. split; reflexivity.
    + assert (catch AttributeError
                (hardware <- group_of r None "hardware" ;;
                 HuaweiSSH.log_match_found "hardware" ;;
                 ret (Some hardware))
                (ret None) s
              = (Ok None, s)) as Hnone.
      { rewrite (catch_caught AttributeError _ _ s s); reflexivity. }
      rewrite (bind_ok _ _ _ _ _ Hnone). exact IH.
Qed.

Lemma return_hardware_logged output s :
  _logger s = true ->
  exists hw logs,
    HuaweiSSH._return_hardware output s = (Ok hw, with_trace (trace s ++ logs) s)
    /\ commands_sent logs = [].
Proof.
  apply return_hardware_from_logged. repeat constructor.
Qed.

Lemma set_hardware_ok v s :
  set_hardware v s
  = (Ok tt, with_info (_hostname s) (_os_version s) v (_uptime s) (_patch_version s) s).
Proof. reflexivity. Qed.

Lemma set_os_version_ok v s :
  set_os_version v s
  = (Ok tt, with_info (_hostname s) (Some v) (_hardware s) (_uptime s) (_patch_version s) s).
Proof. reflexivity. Qed.

Lemma os_version_unset s :
  _os_version s = None -> BaseSSH.os_version s = (Raise AttributeError, s).
Proof. intros H. unfold BaseSSH.os_version, bind, get. cbn [fst snd]. rewrite H. reflexivity. Qed.

Lemma commands_sent_after_send env s command :
  commands_sent
    (EvSend command ::
       match transport_respond env (sent s) command with
       | Ok _ => [EvLog INFO "Executing command"; EvLog WARNING "Executing command"]
       | Raise _ => [EvLog ERROR "Exception while trying to execute command"]
       end)
  = [command].
Proof. destruct (transport_respond env (sent s) command); reflexivity. Qed.

(** X16. As long as the software version of a session was never set,
    asking for the platform of a device whose hardware is not known yet
    fails: [hardware_platform] sends 'display version' once and then raises
    [AttributeError], because [request_hardware_info] reads [os_version]
    for its log message before the attribute exists. *)
Theorem hardware_platform_before_os_version (env : Env) (s : session) :
  netmiko_ready s ->
  truthy (_hardware s) = false ->
  _os_version s = None ->
  exists s',
    HuaweiSSH.hardware_platform env s = (Raise AttributeError, s')
    /\ commands_sent (trace s') = commands_sent (trace s) ++ [DISPLAY_VERSION].
Proof.
  intros [Hlog Hlib] Hhw Hos.
  unfold HuaweiSSH.hardware_platform.
  rewrite (bind_ok _ _ _ (or_None (_hardware s)) s); [| reflexivity].
  unfold or_None. rewrite Hhw. cbn [truthy].
  unfold HuaweiSSH.request_hardware_info, HuaweiSSH.log_info_requesting.
  match goal with
  | |- context [bind (bind (log ?l ?msg) ?k) ?k' s] =>
      assert (exists s', bind (log l msg) k s = (Raise AttributeError, s')
                         /\ commands_sent (trace s')
                            = commands_sent (trace s) ++ [DISPLAY_VERSION]) as (s' & Hreq & Hsent)
  end.
  { rewrite (bind_ok _ _ _ _ _ (log_ok _ _ _ Hlog)).
    set (s0 := with_trace _ s).
    assert (netmiko_ready s0) as Hready0 by (split; [exact Hlog | exact Hlib]).
    rewrite (bind_ok _ _ _ _ _ (send_command_netmiko_state env s0 DISPLAY_VERSION Hready0)).
    set (s1 := with_trace _ (with_counters _ _ s0)).
    destruct (return_hardware_logged
                (reply_text (transport_respond env (sent s0) DISPLAY_VERSION)) s1 Hlog)
      as (hw & logs & Hhardware & Hquiet).
    rewrite (bind_ok _ _ _ _ _ Hhardware).
    rewrite (bind_ok _ _ _ _ _ (set_hardware_ok _ _)).
    set (s2 := with_info _ _ _ _ _ (with_trace _ s1)).
    assert (_os_version s2 = None) as Hos2 by exact Hos.
    rewrite (bind_raise _ _ _ _ _ (os_version_unset s2 Hos2)).
    exists s2. split; [reflexivity |].
    unfold s2, s1. cbn [trace with_info with_trace].
    unfold s0 at 1. cbn [trace with_trace].
    rewrite !commands_sent_app, commands_sent_after_send, Hquiet.
    cbn [commands_sent]. rewrite !app_nil_r. reflexivity. }
  exists s'. split; [| exact Hsent].
  apply bind_raise. exact Hreq.
Qed.

Lemma hardware_platform_witness :
  netmiko_ready Examples.connected
  /\ (HuaweiSSH.hardware_platform (Examples.env_S 0) Examples.connected).1
     = Raise AttributeError.
Proof.
  assert (netmiko_ready Examples.connected) as Hready by (split; reflexivity).
  split; [exact Hready |].
  destruct (hardware_platform_before_os_version (Examples.env_S 0) Examples.connected
              Hready eq_refl eq_refl) as (s' & H & _).
  rewrite H. reflexivity.
Defined.

(** X17. On an open Netmiko session, when the reply to 'display version'
    shows the software version but no 'uptime is', [request_common_info]
    raises [NameError] right after that command: the handler of
    [_return_uptime] calls [log_match_error] as a plain function. The
    software version has been stored by then; no field is returned. *)
Theorem request_common_info_without_uptime
    (env : Env) (s : session) (flag_uptime_since : bool) (m : rmatch) :
  netmiko_ready s ->
  search true regex_version (reply_text (transport_respond env (sent s) DISPLAY_VERSION))
    = Some m ->
  search false regex_uptime (reply_text (transport_respond env (sent s) DISPLAY_VERSION))
    = None ->
  exists s' version,
    HuaweiSSH.request_common_info env flag_uptime_since s = (Raise NameError, s')
    /\ group regex_version m "version" = Ok version
    /\ _os_version s' = Some (VStr (py_str version))
    /\ commands_sent (trace s') = commands_sent (trace s) ++ [DISPLAY_VERSION].
Proof.
  intros [Hlog Hlib] Hversion Huptime.
  destruct (group_defined regex_version m "version" eq_refl) as (version & Hg).
  unfold HuaweiSSH.request_common_info, HuaweiSSH.log_info_requesting.
  rewrite (bind_ok _ _ _ _ _ (log_ok _ _ _ Hlog)).
  set (s0 := with_trace _ s).
  assert (netmiko_ready s0) as Hready0 by (split; [exact Hlog | exact Hlib]).
  rewrite (bind_ok _ _ _ _ _ (send_command_netmiko_state env s0 DISPLAY_VERSION Hready0)).
  change (sent s0) with (sent s).
  set (output := reply_text (transport_respond env (sent s) DISPLAY_VERSION)) in *.
  set (s1 := with_trace _ (with_counters _ _ s0)).
  assert (HuaweiSSH._return_version output s1 = (Ok (VStr (py_str version)), s1)) as Hv.
  { unfold HuaweiSSH._return_version. rewrite Hversion. apply catch_ok.
    unfold group_of, lift.
    rewrite (bind_ok _ _ _ version s1); [reflexivity | cbv beta; rewrite Hg; reflexivity]. }
  rewrite (bind_ok _ _ _ _ _ Hv).
  rewrite (bind_ok _ _ _ _ _ (set_os_version_ok _ _)).
  set (s2 := with_info _ _ _ _ _ s1).
  destruct (return_hardware_logged output s2 Hlog) as (hw & logs & Hhardware & Hquiet).
  rewrite (bind_ok _ _ _ _ _ Hhardware).
  rewrite (bind_ok _ _ _ _ _ (set_hardware_ok _ _)).
  set (s3 := with_info _ _ _ _ _ (with_trace _ s2)).
  assert (HuaweiSSH._return_uptime output s3 = (Raise NameError, s3)) as Hup.
  { unfold HuaweiSSH._return_uptime. rewrite Huptime.
    rewrite (catch_caught AttributeError _ _ s3 s3); reflexivity. }
  assert ((if flag_uptime_since
           then
             up <- HuaweiSSH._return_uptime output ;;
             since <- HuaweiSSH.convert_uptime_to_since_date env up ;;
             set_uptime since
           else
             up <- HuaweiSSH._return_uptime output ;;
             set_uptime up) s3 = (Raise NameError, s3)) as Hbranch.
  { destruct flag_uptime_since; apply bind_raise; exact Hup. }
  rewrite (bind_raise _ _ _ _ _ Hbranch).
  exists s3, version. split; [reflexivity |]. split; [exact Hg |]. split; [reflexivity |].
  unfold s3, s2, s1. cbn [trace with_info with_trace with_counters].
  unfold s0. cbn [trace with_trace].
  rewrite !commands_sent_app, commands_sent_after_send, Hquiet.
  cbn [commands_sent]. rewrite !app_nil_r. reflexivity.
Qed.

Lemma request_common_info_without_uptime_witness :
  netmiko_ready Examples.connected
  /\ (HuaweiSSH.request_common_info
        (env_replying "VRP (R) software, Version 5.170 (S5720 V200R011C10SPC600)")
        true Examples.connected).1
     = Raise NameError.
Proof.
  assert (netmiko_ready Examples.connected) as Hready by (split; reflexivity).
  split; [exact Hready |].
  destruct (search true regex_version
              "VRP (R) software, Version 5.170 (S5720 V200R011C10SPC600)") as [m|] eqn:Em;
    [| exfalso; vm_compute in Em; discriminate Em].
  destruct (request_common_info_without_uptime
              (env_replying "VRP (R) software, Version 5.170 (S5720 V200R011C10SPC600)")
              Examples.connected true m Hready Em) as (s' & version & H & _).
  - vm_compute. reflexivity.
  - rewrite H. reflexivity.
Defined.

(** ** The customer's fields *)

(** X18. [add_customer_fields], the [try] block of the collector's
    [request_common_info], never raises and sends nothing; it leaves every
    field other than geo, segment, role and mgmt_ip as it was, and the
    MGMT IP cell of the row shows the address of the host when the three
    functions of the customer succeeded and 'Error' as soon as one of them
    raised. *)
Theorem add_customer_fields_mgmt_ip
    (c : HuaweiCollector.collector) (host_ip : string) (properties : dict)
    (sysname : value) (s : session) :
  properties !! "hostname" = Some sysname ->
  properties !! "mgmt_ip" = None ->
  exists result s',
    HuaweiCollector.add_customer_fields c host_ip properties s = (Ok result, s')
    /\ commands_sent (trace s') = commands_sent (trace s)
    /\ (forall key,
          key <> "geo" -> key <> "segment" -> key <> "role" -> key <> "mgmt_ip" ->
          result !! key = properties !! key)
    /\ HuaweiCollector.get_report_row result !! 4%nat
       = Some (match get_geolocation_from_sysname (HuaweiCollector.customer c) sysname,
                     get_segment_from_sysname (HuaweiCollector.customer c) sysname,
                     get_role_from_sysname (HuaweiCollector.customer c) sysname with
               | Ok _, Ok _, Ok _ => VStr host_ip
               | _, _, _ => VStr "Error"
               end).
Proof.
  intros Hname Hip.
  assert (forall r : dict,
             HuaweiCollector.get_report_row r !! 4%nat
             = Some (default (VStr "Error") (r !! "mgmt_ip"))) as Hcell
    by (intros r; reflexivity).
  unfold HuaweiCollector.add_customer_fields. rewrite Hname. cbn [default from_option id]. cbv zeta.
  destruct (get_geolocation_from_sysname (HuaweiCollector.customer c) sysname) as [geo|e1];
    [destruct (get_segment_from_sysname (HuaweiCollector.customer c) sysname) as [segment|e2];
     [destruct (get_role_from_sysname (HuaweiCollector.customer c) sysname) as [role|e3] |] |];
    unfold parent_log, emit, modify, bind, ret;
    eexists _, _; (split; [reflexivity |]);
    (split; [cbn [trace with_trace]; rewrite ?commands_sent_app; cbn [commands_sent];
             rewrite ?app_nil_r; reflexivity |]);
    (split; [intros key H1 H2 H3 H4;
             repeat (rewrite lookup_insert_ne by (intros E; symmetry in E; contradiction));
             reflexivity |]);
    rewrite Hcell;
    repeat first [rewrite lookup_insert_eq
                 | rewrite lookup_insert_ne by (intros E; discriminate E)];
    rewrite ?Hip; reflexivity.
Qed.

Lemma add_customer_fields_witness :
  exists result s',
    HuaweiCollector.add_customer_fields
      (Examples.collector_with HuaweiCollector.default_check_list) "10.0.0.1"
      {["hostname" := VStr "ToR-R1"]} Examples.connected
    = (Ok result, s')
    /\ HuaweiCollector.get_report_row result !! 4%nat = Some (VStr "10.0.0.1").
Proof.
  destruct (add_customer_fields_mgmt_ip
              (Examples.collector_with HuaweiCollector.default_check_list) "10.0.0.1"
              {["hostname" := VStr "ToR-R1"]} (VStr "ToR-R1") Examples.connected)
    as (result & s' & Hrun & _ & _ & Hcell).
  - vm_compute. reflexivity.
  - vm_compute. reflexivity.
  - exists result, s'. split; [exact Hrun | exact Hcell].
Defined.

(** ** Checks that depend on the platform *)

Lemma hardware_platform_known env s hw :
  _hardware s = VStr hw ->
  hw <> "" ->
  HuaweiSSH.hardware_platform env s
  = (Ok (HuaweiSSH.platform_of HARDWARE_PLATFORMS hw), s).
Proof.
  intros Hhw Hne. unfold HuaweiSSH.hardware_platform.
  rewrite (bind_ok _ _ _ (or_None (_hardware s)) s); [| reflexivity].
  assert (or_None (_hardware s) = VStr hw) as ->.
  { rewrite Hhw. unfold or_None. cbn [truthy].
    destruct (String.eqb_spec hw ""); [contradiction | reflexivity]. }
  cbn [truthy]. destruct (String.eqb_spec hw ""); [contradiction |]. cbn [negb].
  rewrite (bind_ok _ _ _ (VStr hw) s); reflexivity.
Qed.

(** X19. For a device whose hardware is known and is not of the S
    platform, [request_access_users_number] sends no command and returns
    the empty string for both numbers, 802.1x and MAB. *)
Theorem request_access_users_number_not_S (env : Env) (s : session) (hw : string) :
  _logger s = true ->
  _hardware s = VStr hw ->
  hw <> "" ->
  HuaweiSSH.platform_of HARDWARE_PLATFORMS hw <> VStr "S" ->
  exists s',
    HuaweiSSH.request_access_users_number env s
    = (Ok (<["dot1x_users_number" := VStr ""]> (<["mab_users_number" := VStr ""]> ∅)), s')
    /\ commands_sent (trace s') = commands_sent (trace s).
Proof.
  intros Hlog Hhw Hne Hplatform.
  assert (forall t, _logger (with_trace t s) = true) as Hlogt by (intros t; exact Hlog).
  assert (forall t, _hardware (with_trace t s) = VStr hw) as Hhwt by (intros t; exact Hhw).
  assert (forall t,
             exists t',
               HuaweiSSH.request_dot1x_users_number env (with_trace t s)
               = (Ok (VStr ""), with_trace (t ++ t') s)
               /\ commands_sent t' = []) as Hdot1x.
  { intros t. unfold HuaweiSSH.request_dot1x_users_number,
      HuaweiSSH.get_command_and_regex_dot1x_users, HuaweiSSH.log_info_requesting.
    set (s0 := with_trace t s).
    assert ((platform <- HuaweiSSH.hardware_platform env ;;
             if decide (platform = VStr "S")
             then
               log DEBUG "Determined for requesting Dot1x users" ;;
               ret (Some HuaweiS.get_command_and_regex_dot1x_users)
             else
               log INFO "Can't request 802.1x users info for non-S series switches" ;;
               ret None) s0
            = (Ok None,
               with_trace
                 (trace s0
                  ++ [EvLog INFO "Can't request 802.1x users info for non-S series switches"])
                 s0)) as Hcr.
    { rewrite (bind_ok _ _ _ _ _ (hardware_platform_known env s0 hw (Hhwt t) Hne)).
      destruct (decide (HuaweiSSH.platform_of HARDWARE_PLATFORMS hw = VStr "S"));
        [contradiction |].
      rewrite (bind_ok _ _ _ _ _ (log_ok _ _ _ (Hlogt t))). reflexivity. }
    rewrite (bind_ok _ _ _ _ _ Hcr).
    set (s1 := with_trace _ s0).
    assert (_logger s1 = true) as Hlog1 by exact Hlog.
    rewrite (bind_ok _ _ _ _ _ (log_ok _ _ s1 Hlog1)).
    eexists [_; _]. split.
    - unfold s1, s0, with_trace, ret.
      cbn [ip_address _hostname _logger _ssh_lib_type ssh_channell _os_version _hardware
           _uptime _patch_version sent ticks trace].
      rewrite <- app_assoc. reflexivity.
    - reflexivity. }
  assert (forall t,
             exists t',
               HuaweiSSH.request_mab_users_number env (with_trace t s)
               = (Ok (VStr ""), with_trace (t ++ t') s)
               /\ commands_sent t' = []) as Hmab.
  { intros t. unfold HuaweiSSH.request_mab_users_number,
      HuaweiSSH.get_command_and_regex_mac_users, HuaweiSSH.log_info_requesting.
    set (s0 := with_trace t s).
    assert ((platform <- HuaweiSSH.hardware_platform env ;;
             if decide (platform = VStr "S")
             then
               log DEBUG "Determined for requesting MAB users" ;;
               ret (Some HuaweiS.get_command_and_regex_mac_users)
             else
               log INFO "Can't request MAC users info for non-S series switches" ;;
               ret None) s0
            = (Ok None,
               with_trace
                 (trace s0
                  ++ [EvLog INFO "Can't request MAC users info for non-S series switches"])
                 s0)) as Hcr.
    { rewrite (bind_ok _ _ _ _ _ (hardware_platform_known env s0 hw (Hhwt t) Hne)).
      destruct (decide (HuaweiSSH.platform_of HARDWARE_PLATFORMS hw = VStr "S"));
        [contradiction |].
      rewrite (bind_ok _ _ _ _ _ (log_ok _ _ _ (Hlogt t))). reflexivity. }
    rewrite (bind_ok _ _ _ _ _ Hcr).
    set (s1 := with_trace _ s0).
    assert (_logger s1 = true) as Hlog1 by exact Hlog.
    rewrite (bind_ok _ _ _ _ _ (log_ok _ _ s1 Hlog1)).
    eexists [_; _]. split.
    - unfold s1, s0, with_trace, ret.
      cbn [ip_address _hostname _logger _ssh_lib_type ssh_channell _os_version _hardware
           _uptime _patch_version sent ticks trace].
      rewrite <- app_assoc. reflexivity.
    - reflexivity. }
  assert (s = with_trace (trace s) s) as Hs by (destruct s; reflexivity).
  destruct (Hdot1x (trace s)) as (t1 & H1 & Hq1). rewrite <- Hs in H1.
  destruct (Hmab (trace s ++ t1)) as (t2 & H2 & Hq2).
  unfold HuaweiSSH.request_access_users_number.
  rewrite (bind_ok _ _ _ _ _ H1), (bind_ok _ _ _ _ _ H2).
  eexists. split; [reflexivity |].
  cbn [trace with_trace]. rewrite !commands_sent_app, Hq1, Hq2, !app_nil_r. reflexivity.
Qed.

Lemma request_access_users_number_witness :
  HuaweiSSH.platform_of HARDWARE_PLATFORMS "CE6860-48S8CQ-EI" = VStr "CE"
  /\ (HuaweiSSH.request_access_users_number (Examples.env_S 0)
        (Examples.knowing "CE6860-48S8CQ-EI")).1
     = Ok (<["dot1x_users_number" := VStr ""]> (<["mab_users_number" := VStr ""]> ∅)).
Proof.
  split; [vm_compute; reflexivity |].
  destruct (request_access_users_number_not_S (Examples.env_S 0)
              (Examples.knowing "CE6860-48S8CQ-EI") "CE6860-48S8CQ-EI")
    as (s' & H & _).
  - reflexivity.
  - reflexivity.
  - intros E. discriminate E.
  - vm_compute. intros E. discriminate E.
  - rewrite H. reflexivity.
Defined.

(** ** Checks on a silent device *)

(** X20. When the device gives no text in reply to 'display ip
    vpn-instance' (also when the command failed in the transport),
    [request_all_vrf_list] on an open Netmiko session still returns a
    text: a total of 0 and no name. *)
Theorem request_all_vrf_list_without_reply (env : Env) (s : session) :
  netmiko_ready s ->
  reply_text (transport_respond env (sent s) DISPLAY_IP_VRF) = "" ->
  exists s',
    HuaweiSSH.request_all_vrf_list env s = (Ok "VRF: 0: ", s')
    /\ commands_sent (trace s') = commands_sent (trace s) ++ [DISPLAY_IP_VRF].
Proof.
  intros [Hlog Hlib] Hreply.
  unfold HuaweiSSH.request_all_vrf_list, HuaweiSSH.log_info_requesting,
    HuaweiSSH.log_info_requested.
  rewrite (bind_ok _ _ _ _ _ (log_ok _ _ _ Hlog)).
  set (s0 := with_trace _ s).
  assert (netmiko_ready s0) as Hready0 by (split; [exact Hlog | exact Hlib]).
  rewrite (bind_ok _ _ _ _ _ (send_command_netmiko_state env s0 DISPLAY_IP_VRF Hready0)).
  change (sent s0) with (sent s). rewrite Hreply.
  set (s1 := with_trace _ (with_counters _ _ s0)).
  assert (_logger s1 = true) as Hlog1 by exact Hlog.
  change (finditer false regex_vrf_name "") with (@nil rmatch).
  cbn [HuaweiSSH.mapM].
  rewrite (bind_ok _ _ _ [] s1); [| reflexivity].
  rewrite (bind_ok _ _ _ (VInt 0) s1); [| reflexivity].
  rewrite (bind_ok _ _ _ _ _ (log_ok _ _ _ Hlog1)).
  eexists. split; [reflexivity |].
  unfold s1, s0. cbn [trace with_trace with_counters].
  rewrite !commands_sent_app, commands_sent_after_send.
  cbn [commands_sent]. rewrite !app_nil_r. reflexivity.
Qed.

Lemma request_all_vrf_list_witness :
  netmiko_ready Examples.connected
  /\ (HuaweiSSH.request_all_vrf_list (Examples.env_S 0) Examples.connected).1
     = Ok "VRF: 0: ".
Proof.
  assert (netmiko_ready Examples.connected) as Hready by (split; reflexivity).
  split; [exact Hready |].
  destruct (request_all_vrf_list_without_reply (Examples.env_S 0) Examples.connected
              Hready eq_refl) as (s' & H & _).
  rewrite H. reflexivity.
Defined.

(** X21. When the reply to 'display stack' lists fewer than two members,
    [request_stack_brief_info] on an open Netmiko session reads no field
    of the stack: asked for one key it returns an empty 'stack_info',
    otherwise the number of members alone. It sends that one command and
    never raises. *)
Theorem request_stack_brief_info_single_member
    (env : Env) (s : session) (one_key_only more_than_two_member_only : bool) :
  netmiko_ready s ->
  (length (finditer false regex_stack_member
             (reply_text (transport_respond env (sent s) DISPLAY_STACK))) < 2)%nat ->
  exists s',
    HuaweiSSH.request_stack_brief_info env one_key_only more_than_two_member_only s
    = (Ok (if one_key_only then {["stack_info" := VStr ""]}
           else {["Stack members number" :=
                    VInt (Z.of_nat
                            (length
                               (finditer false regex_stack_member
                                  (reply_text
                                     (transport_respond env (sent s) DISPLAY_STACK)))))]}),
       s')
    /\ commands_sent (trace s') = commands_sent (trace s) ++ [DISPLAY_STACK].
Proof.
  intros [Hlog Hlib] Hfew.
  unfold HuaweiSSH.request_stack_brief_info, HuaweiSSH.log_info_requesting,
    HuaweiSSH.log_info_requested.
  rewrite (bind_ok _ _ _ _ _ (log_ok _ _ _ Hlog)).
  set (s0 := with_trace _ s).
  assert (netmiko_ready s0) as Hready0 by (split; [exact Hlog | exact Hlib]).
  rewrite (bind_ok _ _ _ _ _ (send_command_netmiko_state env s0 DISPLAY_STACK Hready0)).
  change (sent s0) with (sent s).
  set (output := reply_text (transport_respond env (sent s) DISPLAY_STACK)) in *.
  set (s1 := with_trace _ (with_counters _ _ s0)).
  assert (_logger s1 = true) as Hlog1 by exact Hlog.
  set (n := Z.of_nat (length (finditer false regex_stack_member output))).
  assert ((1 <? n)%Z = false) as Hn by (apply Z.ltb_ge; unfold n; lia).
  assert (exists logs,
             HuaweiSSH._return_stack_info env output one_key_only more_than_two_member_only s1
             = (Ok (if one_key_only then {["stack_info" := VStr ""]}
                    else {["Stack members number" := VInt n]}),
                with_trace (trace s1 ++ logs) s1)
             /\ commands_sent logs = []) as (logs & Hinfo & Hquiet).
  { unfold HuaweiSSH._return_stack_info, HuaweiSSH._return_stack_member_number,
      HuaweiSSH.log_match_found, BaseSSH.log_event_debug.
    rewrite (bind_ok _ _ _ _ _ (log_ok _ _ _ Hlog1)).
    set (s2 := with_trace _ s1).
    assert (_logger s2 = true) as Hlog2 by exact Hlog.
    cbv zeta.
    rewrite (bind_ok _ _ _ n (with_trace (trace s2 ++ [EvLog DEBUG "Got Stack members number"]) s2)).
    2:{ rewrite (bind_ok _ _ _ _ _ (log_ok _ _ _ Hlog2)). reflexivity. }
    fold n. rewrite Hn, andb_false_r.
    eexists [_; _]. split.
    - destruct one_key_only; unfold s2, with_trace, ret;
        cbn [ip_address _hostname _logger _ssh_lib_type ssh_channell _os_version _hardware
             _uptime _patch_version sent ticks trace];
        rewrite <- app_assoc; reflexivity.
    - reflexivity. }
  rewrite (bind_ok _ _ _ _ _ Hinfo).
  set (s3 := with_trace _ s1).
  assert (_logger s3 = true) as Hlog3 by exact Hlog.
  rewrite (bind_ok _ _ _ _ _ (log_ok _ _ s3 Hlog3)).
  eexists. split; [reflexivity |].
  unfold s3, s1, s0. cbn [trace with_trace with_counters].
  rewrite !commands_sent_app, commands_sent_after_send, Hquiet.
  cbn [commands_sent]. rewrite !app_nil_r. reflexivity.
Qed.

Lemma request_stack_brief_info_witness :
  netmiko_ready Examples.connected
  /\ (HuaweiSSH.request_stack_brief_info (Examples.env_S 0) true true Examples.connected).1
     = Ok {["stack_info" := VStr ""]}.
Proof.
  assert (netmiko_ready Examples.connected) as Hready by (split; reflexivity).
  split; [exact Hready |].
  destruct (request_stack_brief_info_single_member (Examples.env_S 0) Examples.connected
              true true Hready) as (s' & H & _).
  - vm_compute. lia.
  - rewrite H. reflexivity.
Defined.

(** X22. For a device whose hardware is known and is of neither the CE
    nor the S platform, [request_mac_summary] on an open Netmiko session
    sends 'display mac-address summary' and returns an empty dictionary
    whatever the device replies: no pattern is known for the platform. *)
Theorem request_mac_summary_other_platform (env : Env) (s : session) (hw : string) :
  netmiko_ready s ->
  _hardware s = VStr hw ->
  hw <> "" ->
  HuaweiSSH.platform_of HARDWARE_PLATFORMS hw <> VStr "CE" ->
  HuaweiSSH.platform_of HARDWARE_PLATFORMS hw <> VStr "S" ->
  exists s',
    HuaweiSSH.request_mac_summary env s = (Ok ∅, s')
    /\ commands_sent (trace s') = commands_sent (trace s) ++ [DISPLAY_MAC_SUMMARY].
Proof.
  intros [Hlog Hlib] Hhw Hne HCE HS.
  unfold HuaweiSSH.request_mac_summary, HuaweiSSH.log_info_requesting,
    HuaweiSSH.log_info_requested.
  rewrite (bind_ok _ _ _ _ _ (log_ok _ _ _ Hlog)).
  set (s0 := with_trace _ s).
  assert (netmiko_ready s0) as Hready0 by (split; [exact Hlog | exact Hlib]).
  rewrite (bind_ok _ _ _ _ _ (send_command_netmiko_state env s0 DISPLAY_MAC_SUMMARY Hready0)).
  change (sent s0) with (sent s).
  set (output := reply_text (transport_respond env (sent s) DISPLAY_MAC_SUMMARY)).
  set (s1 := with_trace _ (with_counters _ _ s0)).
  assert (_logger s1 = true) as Hlog1 by exact Hlog.
  assert (_hardware s1 = VStr hw) as Hhw1 by exact Hhw.
  assert (exists logs,
             HuaweiSSH._return_mac_summary env output s1
             = (Ok ∅, with_trace (trace s1 ++ logs) s1)
             /\ commands_sent logs = []) as (logs & Hsummary & Hquiet).
  { unfold HuaweiSSH._return_mac_summary, HuaweiSSH.get_regex_request_mac_summary.
    set (s2 := with_trace
                 (trace s1 ++ [EvLog ERROR "Can't determine regex for requesting MAC Summary"])
                 s1).
    assert (_logger s2 = true) as Hlog2 by exact Hlog.
    match goal with
    | |- context [bind ?m _ s1] =>
        assert (m s1 = (Ok Eps, s2)) as Hregex
    end.
    { rewrite (bind_ok _ _ _ _ _ (hardware_platform_known env s1 hw Hhw1 Hne)).
      destruct (decide (HuaweiSSH.platform_of HARDWARE_PLATFORMS hw = VStr "CE"));
        [contradiction |].
      destruct (decide (HuaweiSSH.platform_of HARDWARE_PLATFORMS hw = VStr "S"));
        [contradiction |].
      rewrite (bind_ok _ _ _ _ _ (log_ok _ _ _ Hlog1)). reflexivity. }
    rewrite (bind_ok _ _ _ _ _ Hregex). cbv zeta.
    unfold HuaweiSSH.log_match_error.
    assert (forall (m : M dict) e,
               m s2 = (Raise e, s2) ->
               try_except m
                 (fun _ => log ERROR ("Can't get " +:+ "MAC Summary") ;; ret ∅) s2
               = (Ok ∅,
                  with_trace
                    (trace s1
                     ++ [EvLog ERROR "Can't determine regex for requesting MAC Summary";
                         EvLog ERROR ("Can't get " +:+ "MAC Summary")])
                    s1)) as Hhandled.
    { intros m e Hm. rewrite (try_except_raise _ _ _ _ _ Hm).
      rewrite (bind_ok _ _ _ _ _ (log_ok _ _ s2 Hlog2)).
      unfold s2, with_trace, ret.
      cbn [ip_address _hostname _logger _ssh_lib_type ssh_channell _os_version _hardware
           _uptime _patch_version sent ticks trace].
      rewrite <- app_assoc. reflexivity. }
    eexists. split.
    - destruct (search false Eps output) as [m|].
      + apply (Hhandled _ IndexError). reflexivity.
      + apply (Hhandled _ AttributeError). reflexivity.
    - reflexivity. }
  rewrite (bind_ok _ _ _ _ _ Hsummary).
  set (s3 := with_trace _ s1).
  assert (_logger s3 = true) as Hlog3 by exact Hlog.
  rewrite (bind_ok _ _ _ _ _ (log_ok _ _ s3 Hlog3)).
  eexists. split; [reflexivity |].
  unfold s3, s1, s0. cbn [trace with_trace with_counters].
  rewrite !commands_sent_app, commands_sent_after_send, Hquiet.
  cbn [commands_sent]. rewrite !app_nil_r. reflexivity.
Qed.

Lemma request_mac_summary_witness :
  netmiko_ready (Examples.knowing "USG6350")
  /\ HuaweiSSH.platform_of HARDWARE_PLATFORMS "USG6350" = VStr "USG"
  /\ (HuaweiSSH.request_mac_summary (Examples.env_S 0) (Examples.knowing "USG6350")).1
     = Ok ∅.
Proof.
  assert (netmiko_ready (Examples.knowing "USG6350")) as Hready by (split; reflexivity).
  split; [exact Hready |]. split; [vm_compute; reflexivity |].
  destruct (request_mac_summary_other_platform (Examples.env_S 0)
              (Examples.knowing "USG6350") "USG6350" Hready) as (s' & H & _).
  - reflexivity.
  - intros E. discriminate E.
  - vm_compute. intros E. discriminate E.
  - vm_compute. intros E. discriminate E.
  - rewrite H. reflexivity.
Defined.
